(** * A shallow embedding of [inventory_system.py]

    The class [InventoryManager] keeps a dictionary from item names to
    quantities, changes it through [add_item] and [remove_item], and
    reads and writes it as a JSON document with [load_data] and
    [save_data].

    Python values are dynamically typed, so the arguments of the methods
    and the contents of the stock are values of one type [pyval].  A
    Python [str] is a sequence of code points; a [dict] keeps its keys in
    insertion order, so it is an association list.  A method is a
    function from the object and the outside world (the files and the log)
    to a completion (a result or a raised exception) together with the
    object and the world it leaves behind.

    The standard library that the class calls ([json], the text layer of
    [open]) is written out on the fragment the class can reach: the JSON
    encoder with [indent=4] and [ensure_ascii], the JSON decoder, UTF-8 and
    newline translation.  Not modelled: float arithmetic and the ordering of
    two lists (the completion [Unmodelled] marks the places); the
    interpreter's recursion limit and its limit of 4300 digits on the
    conversion between [int] and decimal text; file permissions, missing
    parent directories and names that [open] refuses, such as the empty
    name or a name with a NUL character (a name denotes nothing, a
    directory or a regular file, two names denote two files, and a file
    that is not there can always be created).  The log is the list of the records handed to [logging]; the
    file [inventory.log], to which the constructor directs them, is kept
    apart from the files of the world.  The statements that depend on one
    of these say so: they bound the digits of the quantities, leave the log
    file out of what stays unchanged, or take the outcome of the library
    call as a hypothesis. *)

From Stdlib Require Import List ZArith NArith Lia Bool String Ascii.
From Stdlib Require Strings.Byte.
From Stdlib Require Import DecimalFacts DecimalPos DecimalN DecimalZ.
Import ListNotations.

#[local] Set Warnings "-register-all".
Local Open Scope N_scope.

(** ** Strings *)

(** A Python [str]: its code points, in order. *)
Definition pystr := list N.

(** The [str] written by an ASCII literal. *)
Definition str (s : string) : pystr :=
  map N_of_ascii (list_ascii_of_string s).

Fixpoint str_eqb (a b : pystr) : bool :=
  match a, b with
  | [], [] => true
  | x :: a', y :: b' => (x =? y) && str_eqb a' b'
  | _, _ => false
  end.

(** [a in b] for two strings: [a] occurs in [b] as a substring. *)
Fixpoint str_prefixb (a b : pystr) : bool :=
  match a, b with
  | [], _ => true
  | x :: a', y :: b' => (x =? y) && str_prefixb a' b'
  | _ :: _, [] => false
  end.

Fixpoint str_contains (b a : pystr) : bool :=
  str_prefixb a b ||
  match b with
  | [] => false
  | _ :: b' => str_contains b' a
  end.

(** Lexicographic order on code points, the order of [str.__lt__]. *)
Fixpoint str_compare (a b : pystr) : comparison :=
  match a, b with
  | [], [] => Eq
  | [], _ :: _ => Lt
  | _ :: _, [] => Gt
  | x :: a', y :: b' =>
      match x ?= y with
      | Eq => str_compare a' b'
      | c => c
      end
  end.

(** ** Values and exceptions *)

Inductive pyval : Type :=
| VNone
| VBool (b : bool)
| VInt (z : Z)
| VFloat (lexeme : pystr)   (* a float, named by a literal that denotes it *)
| VStr (s : pystr)
| VList (l : list pyval)
| VDict (d : list (pystr * pyval)).

Inductive exn : Type :=
| TypeError (msg : string)
| ValueError (msg : string)
| AttributeError (msg : string)
| KeyError
| FileNotFoundError
| IsADirectoryError
| UnicodeDecodeError
| UnicodeEncodeError
| JSONDecodeError.

(** How a computation ends.  [Unmodelled]: the source goes on with an
    operation this development does not describe. *)
Inductive completion (A : Type) : Type :=
| Normal (a : A)
| Raised (e : exn)
| Unmodelled.
Arguments Normal {A} a.
Arguments Raised {A} e.
Arguments Unmodelled {A}.

(** [isinstance(v, str)] and [isinstance(v, int)]; [bool] is a subclass of
    [int]. *)
Definition isinstance_str (v : pyval) : bool :=
  match v with VStr _ => true | _ => false end.

Definition isinstance_int (v : pyval) : bool :=
  match v with VInt _ | VBool _ => true | _ => false end.

(** The integer an [int] (or a [bool]) stands for. *)
Definition as_int (v : pyval) : option Z :=
  match v with
  | VInt z => Some z
  | VBool true => Some 1%Z
  | VBool false => Some 0%Z
  | _ => None
  end.

Definition is_float (v : pyval) : bool :=
  match v with VFloat _ => true | _ => false end.

Definition is_number (v : pyval) : bool :=
  isinstance_int v || is_float v.

(** [a + b] *)
Definition py_add (a b : pyval) : completion pyval :=
  match as_int a, as_int b with
  | Some x, Some y => Normal (VInt (x + y))
  | _, _ =>
      if is_number a && is_number b then Unmodelled
      else
        match a, b with
        | VStr x, VStr y => Normal (VStr (x ++ y))
        | VList x, VList y => Normal (VList (x ++ y))
        | _, _ => Raised (TypeError "unsupported operand type(s) for +")
        end
  end.

(** [a - b] *)
Definition py_sub (a b : pyval) : completion pyval :=
  match as_int a, as_int b with
  | Some x, Some y => Normal (VInt (x - y))
  | _, _ =>
      if is_number a && is_number b then Unmodelled
      else Raised (TypeError "unsupported operand type(s) for -")
  end.

(** The ordering behind [<] and [<=]. *)
Definition py_compare (a b : pyval) : completion comparison :=
  match as_int a, as_int b with
  | Some x, Some y => Normal (x ?= y)%Z
  | _, _ =>
      if is_number a && is_number b then Unmodelled
      else
        match a, b with
        | VStr x, VStr y => Normal (str_compare x y)
        | VList _, VList _ => Unmodelled
        | _, _ => Raised (TypeError "ordering not supported between these types")
        end
  end.

Definition py_lt (a b : pyval) : completion bool :=
  match py_compare a b with
  | Normal Lt => Normal true
  | Normal _ => Normal false
  | Raised e => Raised e
  | Unmodelled => Unmodelled
  end.

Definition py_le (a b : pyval) : completion bool :=
  match py_compare a b with
  | Normal Gt => Normal false
  | Normal _ => Normal true
  | Raised e => Raised e
  | Unmodelled => Unmodelled
  end.

(** ** Dictionaries with string keys, in insertion order *)

Definition dict := list (pystr * pyval).

Fixpoint dict_get (d : dict) (k : pystr) : option pyval :=
  match d with
  | [] => None
  | (k', v) :: r => if str_eqb k' k then Some v else dict_get r k
  end.

(** [d[k] = v]: a present key keeps its place, a new key goes last. *)
Fixpoint dict_set (d : dict) (k : pystr) (v : pyval) : dict :=
  match d with
  | [] => [(k, v)]
  | (k', v') :: r =>
      if str_eqb k' k then (k', v) :: r else (k', v') :: dict_set r k v
  end.

(** [del d[k]] *)
Definition dict_del (d : dict) (k : pystr) : dict :=
  filter (fun kv => negb (str_eqb (fst kv) k)) d.

Definition dict_keys (d : dict) : list pystr := map fst d.

(** [dict(pairs)]: later pairs overwrite earlier ones. *)
Definition dict_of_pairs (l : list (pystr * pyval)) : dict :=
  fold_left (fun d kv => dict_set d (fst kv) (snd kv)) l [].

(** ** The JSON encoder: [json.dump(obj, fp, indent=4)] *)

Module Json.

(** [int.__repr__]: decimal digits, with a minus sign when negative. *)
Fixpoint digits_of_uint (u : Decimal.uint) : pystr :=
  match u with
  | Decimal.Nil => []
  | Decimal.D0 u' => 48 :: digits_of_uint u'
  | Decimal.D1 u' => 49 :: digits_of_uint u'
  | Decimal.D2 u' => 50 :: digits_of_uint u'
  | Decimal.D3 u' => 51 :: digits_of_uint u'
  | Decimal.D4 u' => 52 :: digits_of_uint u'
  | Decimal.D5 u' => 53 :: digits_of_uint u'
  | Decimal.D6 u' => 54 :: digits_of_uint u'
  | Decimal.D7 u' => 55 :: digits_of_uint u'
  | Decimal.D8 u' => 56 :: digits_of_uint u'
  | Decimal.D9 u' => 57 :: digits_of_uint u'
  end.

Definition int_repr (z : Z) : pystr :=
  match Z.to_int z with
  | Decimal.Pos u => digits_of_uint u
  | Decimal.Neg u => 45 :: digits_of_uint u
  end.

(** One lower-case hexadecimal digit, and ['\\u{0:04x}'.format(n)]. *)
Definition hex_digit (n : N) : N :=
  if n <? 10 then 48 + n else 87 + n.

Definition u_escape (n : N) : pystr :=
  [92; 117; hex_digit (n / 4096 mod 16); hex_digit (n / 256 mod 16);
   hex_digit (n / 16 mod 16); hex_digit (n mod 16)].

(** The replacement of one character in [py_encode_basestring_ascii]:
    the short escapes, the printable ASCII characters as they are, and
    everything else as [\uXXXX], code points beyond the basic plane as a
    surrogate pair. *)
Definition escape_char (c : N) : pystr :=
  if c =? 34 then [92; 34]            (* backslash, quote *)
  else if c =? 92 then [92; 92]       (* backslash, backslash *)
  else if c =? 10 then [92; 110]      (* backslash, n *)
  else if c =? 13 then [92; 114]      (* backslash, r *)
  else if c =? 9 then [92; 116]       (* backslash, t *)
  else if c =? 12 then [92; 102]      (* backslash, f *)
  else if c =? 8 then [92; 98]        (* backslash, b *)
  else if (32 <=? c) && (c <=? 126) then [c]
  else if c <? 65536 then u_escape c
  else
    let n := c - 65536 in
    u_escape (N.lor 55296 (N.land (N.shiftr n 10) 1023)) ++
    u_escape (N.lor 56320 (N.land n 1023)).

Definition encode_basestring_ascii (s : pystr) : pystr :=
  34 :: flat_map escape_char s ++ [34].

(** A line break followed by the indentation of nesting level [level]. *)
Definition newline_indent (level : nat) : pystr :=
  10 :: repeat 32 (4 * level).

(** The chunks between the brackets of a non-empty container: the items
    separated by a comma and the line break. *)
Fixpoint join_items (level : nat) (items : list pystr) : pystr :=
  match items with
  | [] => []
  | [x] => x
  | x :: r => x ++ 44 :: newline_indent level ++ join_items level r
  end.

Definition bracket (op cl : N) (level : nat) (items : list pystr) : pystr :=
  match items with
  | [] => [op; cl]
  | _ =>
      op :: newline_indent (S level) ++ join_items (S level) items ++
      newline_indent level ++ [cl]
  end.

(** All or nothing: the texts of the items, when each has one. *)
Fixpoint sequence {A : Type} (l : list (option A)) : option (list A) :=
  match l with
  | [] => Some []
  | None :: _ => None
  | Some x :: r =>
      match sequence r with
      | Some xs => Some (x :: xs)
      | None => None
      end
  end.

(** The text of a value at nesting level [level]; [None] where the text
    needs [float.__repr__]. *)
Fixpoint encode (level : nat) (v : pyval) : option pystr :=
  match v with
  | VNone => Some (str "null")
  | VBool true => Some (str "true")
  | VBool false => Some (str "false")
  | VInt z => Some (int_repr z)
  | VFloat _ => None
  | VStr s => Some (encode_basestring_ascii s)
  | VList l =>
      match sequence (map (encode (S level)) l) with
      | Some items => Some (bracket 91 93 level items)
      | None => None
      end
  | VDict d =>
      match
        sequence
          (map (fun kv =>
                  match encode (S level) (snd kv) with
                  | Some t =>
                      Some (encode_basestring_ascii (fst kv) ++ 58 :: 32 :: t)
                  | None => None
                  end) d)
      with
      | Some items => Some (bracket 123 125 level items)
      | None => None
      end
  end.

Definition dumps (v : pyval) : option pystr := encode 0 v.

(** ** The JSON decoder: [json.loads(s)] *)

(** The decoder's white space: space, tab, line feed, carriage return. *)
Definition is_ws (c : N) : bool :=
  (c =? 32) || (c =? 9) || (c =? 10) || (c =? 13).

Fixpoint skip_ws (s : pystr) : pystr :=
  match s with
  | c :: r => if is_ws c then skip_ws r else s
  | [] => []
  end.

Definition is_digit (c : N) : bool := (48 <=? c) && (c <=? 57).

(** The value of a hexadecimal digit, of either case. *)
Definition hex_val (c : N) : option N :=
  if is_digit c then Some (c - 48)
  else if (97 <=? c) && (c <=? 102) then Some (c - 87)
  else if (65 <=? c) && (c <=? 70) then Some (c - 55)
  else None.

Definition hex4_val (a b c d : N) : option N :=
  match hex_val a, hex_val b, hex_val c, hex_val d with
  | Some x, Some y, Some z, Some w => Some (x * 4096 + y * 256 + z * 16 + w)
  | _, _, _, _ => None
  end.

Definition is_high_surrogate (c : N) : bool := (55296 <=? c) && (c <=? 56319).
Definition is_low_surrogate (c : N) : bool := (56320 <=? c) && (c <=? 57343).

Definition join_surrogates (hi lo : N) : N :=
  65536 + N.lor (N.shiftl (hi - 55296) 10) (lo - 56320).

(** The character a one-letter escape stands for. *)
Definition simple_escape (e : N) : option N :=
  if e =? 34 then Some 34
  else if e =? 92 then Some 92
  else if e =? 47 then Some 47
  else if e =? 98 then Some 8
  else if e =? 102 then Some 12
  else if e =? 110 then Some 10
  else if e =? 114 then Some 13
  else if e =? 116 then Some 9
  else None.

Definition cons_char (c : N) (r : option (pystr * pystr)) : option (pystr * pystr) :=
  match r with
  | Some (t, rest) => Some (c :: t, rest)
  | None => None
  end.

(** [scanstring], strict, from just after the opening quote: the string
    and what follows its closing quote.  [None]: the decoder raises
    [JSONDecodeError].  A [\uXXXX] escape of a high surrogate joins with a
    directly following [\uXXXX] escape of a low surrogate. *)
Fixpoint scanstring (s : pystr) : option (pystr * pystr) :=
  match s with
  | [] => None
  | c :: r =>
      if c =? 34 then Some ([], r)
      else if c =? 92 then
        match r with
        | [] => None
        | e :: r1 =>
            if e =? 117 then
              match r1 with
              | h1 :: h2 :: h3 :: h4 :: r2 =>
                  match hex4_val h1 h2 h3 h4 with
                  | None => None
                  | Some uni =>
                      if is_high_surrogate uni then
                        match r2 with
                        | b :: u :: r3 =>
                            if (b =? 92) && (u =? 117) then
                              match r3 with
                              | g1 :: g2 :: g3 :: g4 :: r4 =>
                                  match hex4_val g1 g2 g3 g4 with
                                  | None => None
                                  | Some uni2 =>
                                      if is_low_surrogate uni2
                                      then cons_char (join_surrogates uni uni2)
                                                     (scanstring r4)
                                      else cons_char uni (scanstring r2)
                                  end
                              | _ => None
                              end
                            else cons_char uni (scanstring r2)
                        | _ => cons_char uni (scanstring r2)
                        end
                      else cons_char uni (scanstring r2)
                  end
              | _ => None
              end
            else
              match simple_escape e with
              | Some ch => cons_char ch (scanstring r1)
              | None => None
              end
        end
      else if c <? 32 then None
      else cons_char c (scanstring r)
  end.

(** The longest run of digits at the head of [s], and the rest. *)
Fixpoint span_digits (s : pystr) : pystr * pystr :=
  match s with
  | c :: r =>
      if is_digit c then let (ds, r') := span_digits r in (c :: ds, r')
      else ([], s)
  | [] => ([], [])
  end.

Definition digit_of_char (c : N) (u : Decimal.uint) : Decimal.uint :=
  if c =? 48 then Decimal.D0 u
  else if c =? 49 then Decimal.D1 u
  else if c =? 50 then Decimal.D2 u
  else if c =? 51 then Decimal.D3 u
  else if c =? 52 then Decimal.D4 u
  else if c =? 53 then Decimal.D5 u
  else if c =? 54 then Decimal.D6 u
  else if c =? 55 then Decimal.D7 u
  else if c =? 56 then Decimal.D8 u
  else Decimal.D9 u.

Definition uint_of_digits (ds : pystr) : Decimal.uint :=
  fold_right digit_of_char Decimal.Nil ds.

(** The integer part of a number: an optional minus sign, then either a
    single zero or a non-zero digit and all the digits after it. *)
Definition match_integer (s : pystr) : option (bool * pystr * pystr) :=
  let (neg, s1) :=
    match s with
    | c :: r => if c =? 45 then (true, r) else (false, s)
    | [] => (false, s)
    end in
  match s1 with
  | c :: r =>
      if c =? 48 then Some (neg, [48], r)
      else if is_digit c then
        let (ds, r') := span_digits r in Some (neg, c :: ds, r')
      else None
  | [] => None
  end.

(** The fraction: a point and digits, when a digit follows the point. *)
Definition match_frac (s : pystr) : pystr * pystr :=
  match s with
  | c :: r =>
      if c =? 46 then
        match span_digits r with
        | ([], _) => ([], s)
        | (ds, r') => (46 :: ds, r')
        end
      else ([], s)
  | [] => ([], s)
  end.

(** The exponent: [e] or [E], an optional sign and digits, when a digit
    follows the mark and the sign. *)
Definition match_exp (s : pystr) : pystr * pystr :=
  match s with
  | c :: r =>
      if (c =? 101) || (c =? 69) then
        let (sign, r1) :=
          match r with
          | g :: r' => if (g =? 45) || (g =? 43) then ([g], r') else ([], r)
          | [] => ([], r)
          end in
        match span_digits r1 with
        | ([], _) => ([], s)
        | (ds, r2) => (c :: sign ++ ds, r2)
        end
      else ([], s)
  | [] => ([], s)
  end.

(** A number at the head of [s]: an [int] when it has neither fraction
    nor exponent, a [float] otherwise. *)
Definition match_number (s : pystr) : option (pyval * pystr) :=
  match match_integer s with
  | None => None
  | Some (neg, ds, r) =>
      let (frac, r1) := match_frac r in
      let (exp, r2) := match_exp r1 in
      match frac, exp with
      | [], [] =>
          let u := uint_of_digits ds in
          Some (VInt (Z.of_int (if neg then Decimal.Neg u else Decimal.Pos u)), r2)
      | _, _ =>
          Some (VFloat ((if neg then [45] else []) ++ ds ++ frac ++ exp), r2)
      end
  end.

(** [s] with the literal [lit] taken off its head. *)
Fixpoint strip_prefix (lit s : pystr) : option pystr :=
  match lit with
  | [] => Some s
  | x :: lit' =>
      match s with
      | y :: s' => if x =? y then strip_prefix lit' s' else None
      | [] => None
      end
  end.

Inductive presult (A : Type) : Type :=
| POk (a : A)
| PErr            (* the decoder raises JSONDecodeError *)
| PFuel.          (* the recursion budget of the model ran out *)
Arguments POk {A} a.
Arguments PErr {A}.
Arguments PFuel {A}.

(** The constants and numbers of [scan_once]. *)
Definition scan_atom (s : pystr) : presult (pyval * pystr) :=
  match strip_prefix (str "null") s with
  | Some r => POk (VNone, r)
  | None =>
  match strip_prefix (str "true") s with
  | Some r => POk (VBool true, r)
  | None =>
  match strip_prefix (str "false") s with
  | Some r => POk (VBool false, r)
  | None =>
  match match_number s with
  | Some vr => POk vr
  | None =>
  match strip_prefix (str "NaN") s with
  | Some r => POk (VFloat (str "NaN"), r)
  | None =>
  match strip_prefix (str "Infinity") s with
  | Some r => POk (VFloat (str "Infinity"), r)
  | None =>
  match strip_prefix (str "-Infinity") s with
  | Some r => POk (VFloat (str "-Infinity"), r)
  | None => PErr
  end end end end end end end.

(** [scan_once] at the head of [s], with [JSONObject] from just after the
    opening quote of a key ([scan_members]) and [JSONArray] from the start
    of an element ([scan_elements]).  Every call takes one unit of [fuel];
    [loads] below gives enough. *)
Fixpoint scan_once (fuel : nat) (s : pystr) : presult (pyval * pystr) :=
  match fuel with
  | O => PFuel
  | S n =>
      match s with
      | [] => PErr
      | c :: r =>
          if c =? 34 then
            match scanstring r with
            | Some (t, r') => POk (VStr t, r')
            | None => PErr
            end
          else if c =? 123 then
            match skip_ws r with
            | c1 :: r1 =>
                if c1 =? 125 then POk (VDict [], r1)
                else if c1 =? 34 then
                  match scan_members n r1 [] with
                  | POk (pairs, r') => POk (VDict (dict_of_pairs pairs), r')
                  | PErr => PErr
                  | PFuel => PFuel
                  end
                else PErr
            | [] => PErr
            end
          else if c =? 91 then
            match skip_ws r with
            | c1 :: r1 =>
                if c1 =? 93 then POk (VList [], r1)
                else
                  match scan_elements n (c1 :: r1) [] with
                  | POk (values, r') => POk (VList values, r')
                  | PErr => PErr
                  | PFuel => PFuel
                  end
            | [] => PErr
            end
          else scan_atom s
      end
  end

with scan_members (fuel : nat) (s : pystr) (acc : list (pystr * pyval))
  : presult (list (pystr * pyval) * pystr) :=
  match fuel with
  | O => PFuel
  | S n =>
      match scanstring s with
      | None => PErr
      | Some (key, r) =>
          match skip_ws r with
          | c :: r1 =>
              if c =? 58 then
                match scan_once n (skip_ws r1) with
                | POk (value, r2) =>
                    match skip_ws r2 with
                    | c2 :: r3 =>
                        if c2 =? 125 then POk (acc ++ [(key, value)], r3)
                        else if c2 =? 44 then
                          match skip_ws r3 with
                          | c3 :: r4 =>
                              if c3 =? 34
                              then scan_members n r4 (acc ++ [(key, value)])
                              else PErr
                          | [] => PErr
                          end
                        else PErr
                    | [] => PErr
                    end
                | PErr => PErr
                | PFuel => PFuel
                end
              else PErr
          | [] => PErr
          end
      end
  end

with scan_elements (fuel : nat) (s : pystr) (acc : list pyval)
  : presult (list pyval * pystr) :=
  match fuel with
  | O => PFuel
  | S n =>
      match scan_once n s with
      | POk (value, r) =>
          match skip_ws r with
          | c :: r1 =>
              if c =? 93 then POk (acc ++ [value], r1)
              else if c =? 44 then scan_elements n (skip_ws r1) (acc ++ [value])
              else PErr
          | [] => PErr
          end
      | PErr => PErr
      | PFuel => PFuel
      end
  end.

(** [json.loads]: one value between optional white space, and nothing
    after it. *)
Definition loads (s : pystr) : completion pyval :=
  match scan_once (2 * List.length s + 2) (skip_ws s) with
  | POk (v, r) =>
      match skip_ws r with
      | [] => Normal v
      | _ :: _ => Raised JSONDecodeError
      end
  | PErr => Raised JSONDecodeError
  | PFuel => Unmodelled
  end.

End Json.

(** ** The text layer of a file: UTF-8 and universal newlines *)

Module Text.

Definition byte := Init.Byte.byte.

Definition is_cont (b : N) : bool := (128 <=? b) && (b <=? 191).

(** Strict UTF-8 decoding of a sequence of byte values: shortest forms
    only, no surrogates, nothing beyond U+10FFFF.  [None]: the codec raises
    [UnicodeDecodeError]. *)
Fixpoint decode_values (b : list N) : option pystr :=
  match b with
  | [] => Some []
  | b0 :: r =>
      if b0 <? 128 then option_map (cons b0) (decode_values r)
      else if (194 <=? b0) && (b0 <=? 223) then
        match r with
        | b1 :: r1 =>
            if is_cont b1
            then option_map (cons ((b0 - 192) * 64 + (b1 - 128))) (decode_values r1)
            else None
        | _ => None
        end
      else if (224 <=? b0) && (b0 <=? 239) then
        match r with
        | b1 :: b2 :: r2 =>
            if is_cont b1 && is_cont b2
               && negb ((b0 =? 224) && (b1 <? 160))
               && negb ((b0 =? 237) && (159 <? b1))
            then option_map
                   (cons ((b0 - 224) * 4096 + (b1 - 128) * 64 + (b2 - 128)))
                   (decode_values r2)
            else None
        | _ => None
        end
      else if (240 <=? b0) && (b0 <=? 244) then
        match r with
        | b1 :: b2 :: b3 :: r3 =>
            if is_cont b1 && is_cont b2 && is_cont b3
               && negb ((b0 =? 240) && (b1 <? 144))
               && negb ((b0 =? 244) && (143 <? b1))
            then option_map
                   (cons ((b0 - 240) * 262144 + (b1 - 128) * 4096
                          + (b2 - 128) * 64 + (b3 - 128)))
                   (decode_values r3)
            else None
        | _ => None
        end
      else None
  end.

Definition decode (b : list byte) : option pystr :=
  decode_values (map Strings.Byte.to_N b).

(** The UTF-8 form of one code point; [None] for a surrogate (and for a
    number that is no code point): the codec raises [UnicodeEncodeError]. *)
Definition encode_char (c : N) : option (list N) :=
  if c <? 128 then Some [c]
  else if c <? 2048 then Some [192 + c / 64; 128 + c mod 64]
  else if (55296 <=? c) && (c <=? 57343) then None
  else if c <? 65536 then
    Some [224 + c / 4096; 128 + (c / 64) mod 64; 128 + c mod 64]
  else if c <? 1114112 then
    Some [240 + c / 262144; 128 + (c / 4096) mod 64;
          128 + (c / 64) mod 64; 128 + c mod 64]
  else None.

Fixpoint encode_values (s : pystr) : option (list N) :=
  match s with
  | [] => Some []
  | c :: r =>
      match encode_char c, encode_values r with
      | Some bs, Some rest => Some (bs ++ rest)
      | _, _ => None
      end
  end.

Definition byte_of_value (n : N) : byte :=
  match Strings.Byte.of_N n with
  | Some b => b
  | None => Init.Byte.x00
  end.

Definition encode (s : pystr) : option (list byte) :=
  option_map (map byte_of_value) (encode_values s).

(** Reading in text mode with [newline=None]: a carriage return, with the
    line feed after it if there is one, reads as one line feed. *)
Fixpoint universal_newlines (s : pystr) : pystr :=
  match s with
  | [] => []
  | c :: r =>
      if c =? 13 then
        match r with
        | d :: r' =>
            if d =? 10 then 10 :: universal_newlines r'
            else 10 :: universal_newlines r
        | [] => [10]
        end
      else c :: universal_newlines r
  end.

End Text.

(** ** The world outside the object *)

(** What a path names. *)
Inductive node : Type :=
| Absent
| Directory
| Regular (content : list Text.byte).

Inductive level : Type := INFO | WARNING | ERROR.

Record world : Type := mkWorld {
  files : pystr -> node;
  log : list (level * pystr)      (* the records emitted, oldest first *)
}.

Definition write_file (fs : pystr -> node) (name : pystr) (content : list Text.byte)
  : pystr -> node :=
  fun p => if str_eqb p name then Regular content else fs p.

(** ** The class *)

Record InventoryManager : Type := mkInventoryManager {
  file_name : pystr;
  stock_data : pyval
}.

(** A method body: from the object and the world to a completion and the
    object and the world as the body leaves them. *)
Definition method (A : Type) : Type :=
  InventoryManager -> world -> completion A * InventoryManager * world.

Definition ret {A : Type} (a : A) : method A :=
  fun self w => (Normal a, self, w).

Definition bind {A B : Type} (c : method A) (k : A -> method B) : method B :=
  fun self w =>
    match c self w with
    | (Normal a, self', w') => k a self' w'
    | (Raised e, self', w') => (Raised e, self', w')
    | (Unmodelled, self', w') => (Unmodelled, self', w')
    end.

Definition raise {A : Type} (e : exn) : method A :=
  fun self w => (Raised e, self, w).

Definition lift {A : Type} (c : completion A) : method A :=
  fun self w => (c, self, w).

(** [try: body  except ...: handler]; [handler e] is [None] when no
    clause matches [e]. *)
Definition try_except {A : Type} (body : method A)
    (handler : exn -> option (method A)) : method A :=
  fun self w =>
    match body self w with
    | (Raised e, self', w') =>
        match handler e with
        | Some h => h self' w'
        | None => (Raised e, self', w')
        end
    | r => r
    end.

Declare Scope method_scope.
Delimit Scope method_scope with method.
Notation "x <- c ;; k" := (bind c (fun x => k))
  (at level 61, c at next level, right associativity) : method_scope.
Notation "c ;; k" := (bind c (fun _ => k))
  (at level 61, right associativity) : method_scope.
Local Open Scope method_scope.

Definition get_stock : method pyval :=
  fun self w => (Normal (stock_data self), self, w).

Definition set_stock (v : pyval) : method unit :=
  fun self w => (Normal tt, mkInventoryManager (file_name self) v, w).

Definition get_file_name : method pystr :=
  fun self w => (Normal (file_name self), self, w).

Definition emit (l : level) (msg : pystr) : method unit :=
  fun self w => (Normal tt, self, mkWorld (files w) (log w ++ [(l, msg)])).

(** [logging.info], [logging.warning], [logging.error] with the message
    already formatted. *)
Definition logging_info := emit INFO.
Definition logging_warning := emit WARNING.
Definition logging_error := emit ERROR.

(** [%d] of an [int] (or [bool]) and [%s] of a [str]. *)
Definition fmt_d (v : pyval) : pystr :=
  match as_int v with
  | Some z => Json.int_repr z
  | None => []
  end.

Definition fmt_s (v : pyval) : pystr :=
  match v with
  | VStr s => s
  | _ => []
  end.

(** Keys a dictionary can be asked for: everything but lists and
    dictionaries has a hash. *)
Definition hashable (v : pyval) : bool :=
  match v with
  | VList _ | VDict _ => false
  | _ => true
  end.

(** [self.stock_data.get(item, default)] *)
Definition stock_get (item default : pyval) : method pyval :=
  stock <- get_stock ;;
  match stock with
  | VDict d =>
      match item with
      | VStr k =>
          match dict_get d k with
          | Some v => ret v
          | None => ret default
          end
      | _ =>
          if hashable item then ret default
          else raise (TypeError "unhashable type")
      end
  | _ => raise (AttributeError "object has no attribute 'get'")
  end.

(** [item in self.stock_data], for a string [item] *)
Definition stock_contains (k : pystr) : method bool :=
  stock <- get_stock ;;
  match stock with
  | VDict d =>
      ret (match dict_get d k with Some _ => true | None => false end)
  | VList l =>
      ret (existsb (fun v => match v with VStr s => str_eqb s k | _ => false end) l)
  | VStr s => ret (str_contains s k)
  | _ => raise (TypeError "argument is not iterable")
  end.

(** [self.stock_data[item]], for a string [item] *)
Definition stock_getitem (k : pystr) : method pyval :=
  stock <- get_stock ;;
  match stock with
  | VDict d =>
      match dict_get d k with
      | Some v => ret v
      | None => raise KeyError
      end
  | VList _ => raise (TypeError "list indices must be integers or slices, not str")
  | VStr _ => raise (TypeError "string indices must be integers, not 'str'")
  | _ => raise (TypeError "object is not subscriptable")
  end.

(** [self.stock_data[item] = v], for a string [item] *)
Definition stock_setitem (k : pystr) (v : pyval) : method unit :=
  stock <- get_stock ;;
  match stock with
  | VDict d => set_stock (VDict (dict_set d k v))
  | VList _ => raise (TypeError "list indices must be integers or slices, not str")
  | _ => raise (TypeError "object does not support item assignment")
  end.

(** [del self.stock_data[item]], for a string [item] *)
Definition stock_delitem (k : pystr) : method unit :=
  stock <- get_stock ;;
  match stock with
  | VDict d => set_stock (VDict (dict_del d k))
  | VList _ => raise (TypeError "list indices must be integers or slices, not str")
  | _ => raise (TypeError "object doesn't support item deletion")
  end.

(** [InventoryManager(file_name)], with the default file name.  The
    constructor also configures logging: the records go to the file
    [inventory.log]; no record is emitted. *)
Definition __init__ (name : option pystr) : InventoryManager :=
  mkInventoryManager
    (match name with Some n => n | None => str "inventory.json" end)
    (VDict []).

Definition add_item (item qty : pyval) : method unit :=
  match item with
  | VStr k =>
      if negb (isinstance_int qty)
      then raise (TypeError "Quantity must be an integer.")
      else
        nonpos <- lift (py_le qty (VInt 0)) ;;
        if (nonpos : bool)
        then raise (ValueError "Quantity must be greater than zero.")
        else
          current_qty <- stock_get item (VInt 0) ;;
          total <- lift (py_add current_qty qty) ;;
          stock_setitem k total ;;
          logging_info (str "Added " ++ fmt_d qty ++ str " of " ++ k)
  | _ => raise (TypeError "Item name must be a string.")
  end.

Definition remove_item (item qty : pyval) : method unit :=
  match item, isinstance_int qty with
  | VStr k, true =>
      present <- stock_contains k ;;
      if negb present
      then logging_warning (str "Attempted to remove non-existent item: " ++ k)
      else
        old <- stock_getitem k ;;
        new <- lift (py_sub old qty) ;;
        stock_setitem k new ;;
        now <- stock_getitem k ;;
        nonpos <- lift (py_le now (VInt 0)) ;;
        if (nonpos : bool)
        then
          stock_delitem k ;;
          logging_info (str "Removed all of " ++ k ++ str " (now zero or negative)")
        else logging_info (str "Removed " ++ fmt_d qty ++ str " of " ++ k)
  | _, _ => raise (TypeError "Invalid item name or quantity type.")
  end.

Definition get_qty (item : pyval) : method pyval :=
  stock_get item (VInt 0).

(** [open(name, "r", encoding="utf-8")] *)
Definition open_read (name : pystr) : method (list Text.byte) :=
  fun self w =>
    match files w name with
    | Absent => (Raised FileNotFoundError, self, w)
    | Directory => (Raised IsADirectoryError, self, w)
    | Regular content => (Normal content, self, w)
    end.

(** [file.read()] on a file opened for reading as UTF-8 text *)
Definition file_read (content : list Text.byte) : completion pystr :=
  match Text.decode content with
  | Some t => Normal (Text.universal_newlines t)
  | None => Raised UnicodeDecodeError
  end.

(** [json.load(file)] *)
Definition json_load (content : list Text.byte) : completion pyval :=
  match file_read content with
  | Normal t => Json.loads t
  | Raised e => Raised e
  | Unmodelled => Unmodelled
  end.

Definition load_data : method unit :=
  try_except
    (name <- get_file_name ;;
     file <- open_read name ;;
     v <- lift (json_load file) ;;
     set_stock v ;;
     logging_info (str "Data loaded successfully from " ++ name))
    (fun e =>
       match e with
       | FileNotFoundError =>
           Some (name <- get_file_name ;;
                 logging_warning
                   (str "File " ++ name ++ str " not found, starting with empty data.") ;;
                 set_stock (VDict []))
       | JSONDecodeError =>
           Some (name <- get_file_name ;;
                 logging_error (str "Invalid JSON format in " ++ name ++ str ".") ;;
                 set_stock (VDict []))
       | _ => None
       end).

(** [load_data] over the two library calls it makes: [open_] stands for
    [open(name, "r", encoding="utf-8")] and [load] for [json.load(file)].
    [load_data] is [load_data_with open_read json_load]. *)
Definition load_data_with (open_ : pystr -> method (list Text.byte))
    (load : list Text.byte -> completion pyval) : method unit :=
  try_except
    (name <- get_file_name ;;
     file <- open_ name ;;
     v <- lift (load file) ;;
     set_stock v ;;
     logging_info (str "Data loaded successfully from " ++ name))
    (fun e =>
       match e with
       | FileNotFoundError =>
           Some (name <- get_file_name ;;
                 logging_warning
                   (str "File " ++ name ++ str " not found, starting with empty data.") ;;
                 set_stock (VDict []))
       | JSONDecodeError =>
           Some (name <- get_file_name ;;
                 logging_error (str "Invalid JSON format in " ++ name ++ str ".") ;;
                 set_stock (VDict []))
       | _ => None
       end).

(** [open(name, "w", encoding="utf-8")]: the file is created or emptied. *)
Definition open_write (name : pystr) : method unit :=
  fun self w =>
    match files w name with
    | Directory => (Raised IsADirectoryError, self, w)
    | _ => (Normal tt, self, mkWorld (write_file (files w) name []) (log w))
    end.

(** [json.dump(obj, file, indent=4)] and the closing of the file *)
Definition json_dump (obj : pyval) (name : pystr) : method unit :=
  fun self w =>
    match Json.dumps obj with
    | None => (Unmodelled, self, w)
    | Some text =>
        match Text.encode text with
        | None => (Raised UnicodeEncodeError, self, w)
        | Some bytes =>
            (Normal tt, self, mkWorld (write_file (files w) name bytes) (log w))
        end
    end.

Definition save_data : method unit :=
  name <- get_file_name ;;
  open_write name ;;
  stock <- get_stock ;;
  json_dump stock name ;;
  logging_info (str "Data saved successfully to " ++ name).

(** The list comprehension of [check_low_items] over the items of the
    dictionary, in order. *)
Fixpoint low_items (items : dict) (threshold : pyval) : completion (list pystr) :=
  match items with
  | [] => Normal []
  | (item, qty) :: r =>
      match py_lt qty threshold with
      | Normal b =>
          match low_items r threshold with
          | Normal l => Normal (if b then item :: l else l)
          | other => other
          end
      | Raised e => Raised e
      | Unmodelled => Unmodelled
      end
  end.

(** [check_low_items(threshold=5)]: [None] is the call without argument. *)
Definition check_low_items (threshold : option pyval) : method (list pystr) :=
  let threshold := match threshold with Some t => t | None => VInt 5 end in
  stock <- get_stock ;;
  match stock with
  | VDict d => lift (low_items d threshold)
  | _ => raise (AttributeError "object has no attribute 'items'")
  end.

(** ** Runs of calls *)

Inductive call : Type :=
| CallAdd (item qty : pyval)
| CallRemove (item qty : pyval).

Definition run_call (c : call) : method unit :=
  match c with
  | CallAdd item qty => add_item item qty
  | CallRemove item qty => remove_item item qty
  end.

(** The object after a method body, whatever its completion: a caller that
    catches the exception goes on with this object. *)
Definition object_after {A : Type} (r : completion A * InventoryManager * world)
  : InventoryManager := snd (fst r).

Definition world_after {A : Type} (r : completion A * InventoryManager * world)
  : world := snd r.

Definition completion_of {A : Type} (r : completion A * InventoryManager * world)
  : completion A := fst (fst r).

(** The objects that a fresh store reaches by calls of [add_item] and
    [remove_item] with any arguments, failed calls included. *)
Inductive reachable : InventoryManager -> Prop :=
| reach_init (name : option pystr) : reachable (__init__ name)
| reach_call (self : InventoryManager) (c : call) (w : world) :
    reachable self -> reachable (object_after (run_call c self w)).

(** The invariant of the data model: the stock is a dictionary and every
    quantity in it is an [int] above zero. *)
Definition positive_entry (kv : pystr * pyval) : Prop :=
  exists q : Z, snd kv = VInt q /\ (0 < q)%Z.

Definition positive_stock (self : InventoryManager) : Prop :=
  exists d : dict, stock_data self = VDict d /\ Forall positive_entry d.

(** The same, and no key twice. *)
Definition well_formed_stock (self : InventoryManager) : Prop :=
  exists d : dict,
    stock_data self = VDict d /\ NoDup (dict_keys d) /\ Forall positive_entry d.


(** The entries under the other keys, in order. *)
Definition others (k : pystr) (d : dict) : dict :=
  filter (fun kv => negb (str_eqb (fst kv) k)) d.

(** ** Worlds for the examples *)

(** A world with no files and an empty log. *)
Definition empty_world : world := mkWorld (fun _ => Absent) [].

(** The bytes of an ASCII text. *)
Definition bytes_of (s : pystr) : list Text.byte := map Text.byte_of_value s.

(** A world whose file [inventory.json] holds an object with the one key
    [apple] and the quantity [-3]. *)
Definition negative_world : world :=
  mkWorld
    (write_file (fun _ => Absent) (str "inventory.json")
       (bytes_of ([123; 34] ++ str "apple" ++ [34; 58; 32] ++ str "-3" ++ [125])))
    [].

(** A world whose file [inventory.json] holds the one byte FF, which is
    no UTF-8. *)
Definition undecodable_world : world :=
  mkWorld (write_file (fun _ => Absent) (str "inventory.json") [Init.Byte.xff]) [].

(** A world in which [inventory.json] is a directory. *)
Definition directory_world : world :=
  mkWorld (fun p => if str_eqb p (str "inventory.json") then Directory else Absent) [].

(** ** Stocks of integers and their texts *)

(** The number of decimal digits of an integer, the sign not counted. *)
Definition int_digits (z : Z) : nat :=
  match Z.to_int z with
  | Decimal.Pos u | Decimal.Neg u => Decimal.nb_digits u
  end.

(** The integers that the interpreter converts to and from decimal text:
    those of at most 4300 digits.  (Beyond, [str], [%d], [json.dump] and
    [json.load] raise [ValueError].) *)
Definition within_digit_limit (z : Z) : Prop := (int_digits z <= 4300)%nat.


(** The file to which the constructor directs the log. *)
Definition log_file : pystr := str "inventory.log".


(** The dictionary with the integer quantities [d]. *)
Definition int_dict (d : list (pystr * Z)) : dict :=
  map (fun kz => (fst kz, VInt (snd kz))) d.

(** What follows the opening quote of a key in the encoder's text of an
    entry: the escaped key, the closing quote, colon, space, and the
    quantity. *)
Definition entry_tail (kz : pystr * Z) : pystr :=
  flat_map Json.escape_char (fst kz) ++ 34 :: 58 :: 32 :: Json.int_repr (snd kz).

Definition entry_text (kz : pystr * Z) : pystr := 34 :: entry_tail kz.

(** What follows the opening quote of the first key in the encoder's text
    of a non-empty dictionary at level 0, up to and with the closing
    brace. *)
Fixpoint members_tail (kz : pystr * Z) (r : list (pystr * Z)) : pystr :=
  match r with
  | [] => entry_tail kz ++ [10; 125]
  | kz' :: r' =>
      entry_tail kz ++ 44 :: 10 :: 32 :: 32 :: 32 :: 32 :: 34 :: members_tail kz' r'
  end.

(** The encoder's text of a dictionary of integers at level 0. *)
Definition dict_text (d : list (pystr * Z)) : pystr :=
  match d with
  | [] => [123; 125]
  | kz :: r => 123 :: 10 :: 32 :: 32 :: 32 :: 32 :: 34 :: members_tail kz r
  end.

(** The characters of the encoder's output: line feed and printable
    ASCII. *)
Definition plain (c : N) : bool := (c =? 10) || ((32 <=? c) && (c <=? 126)).



(** ** Standard output, [print_data] and [main] *)

(** [str(v)]; [format(v, "")] is the same.  [None]: the text needs the
    [repr] of a float or of a container, which is not modelled. *)
Definition py_str (v : pyval) : option pystr :=
  match v with
  | VNone => Some (str "None")
  | VBool true => Some (str "True")
  | VBool false => Some (str "False")
  | VInt z => Some (Json.int_repr z)
  | VStr s => Some s
  | VFloat _ | VList _ | VDict _ => None
  end.






Section Console.

(** The strings that the encoding of the console can take: writing any
    other string raises [UnicodeEncodeError]. *)
Variable accepts : pystr -> bool.

(** A body that also prints: the last component is the text that standard
    output has received. *)
Definition program (A : Type) : Type :=
  InventoryManager -> world -> pystr ->
  completion A * InventoryManager * world * pystr.

Definition pbind {A B : Type} (c : program A) (k : A -> program B) : program B :=
  fun self w out =>
    match c self w out with
    | (Normal a, self', w', out') => k a self' w' out'
    | (Raised e, self', w', out') => (Raised e, self', w', out')
    | (Unmodelled, self', w', out') => (Unmodelled, self', w', out')
    end.

(** A method body as a program that prints nothing. *)
Definition run {A : Type} (m : method A) : program A :=
  fun self w out =>
    match m self w with
    | (c, self', w') => (c, self', w', out)
    end.

(** [sys.stdout.write(chunk)] *)
Definition write (chunk : pystr) : program unit :=
  fun self w out =>
    if accepts chunk then (Normal tt, self, w, out ++ chunk)
    else (Raised UnicodeEncodeError, self, w, out).

(** [print(a, b, ...)] of arguments already evaluated: the text of each
    argument is written in turn, a space between two of them and a line
    feed at the end.  An argument [None] has a text that is not modelled. *)
Fixpoint print_rest (args : list (option pystr)) : program unit :=
  match args with
  | [] => write [10]
  | None :: _ => fun self w out => (Unmodelled, self, w, out)
  | Some s :: r => pbind (write [32]) (fun _ => pbind (write s) (fun _ => print_rest r))
  end.

Definition print (args : list (option pystr)) : program unit :=
  match args with
  | [] => write [10]
  | None :: _ => fun self w out => (Unmodelled, self, w, out)
  | Some s :: r => pbind (write s) (fun _ => print_rest r)
  end.

(** The loop of [print_data] over the items of the dictionary: one line
    for each, written by an f-string. *)
Fixpoint print_items (items : dict) : program unit :=
  match items with
  | [] => fun self w out => (Normal tt, self, w, out)
  | (item, qty) :: r =>
      pbind
        (print [match py_str qty with
                | Some q => Some (item ++ str " -> " ++ q)
                | None => None
                end])
        (fun _ => print_items r)
  end.

Definition print_data : program unit :=
  pbind (print [Some (str "Items Report")]) (fun _ =>
  pbind (run get_stock) (fun stock =>
  match stock with
  | VDict d => print_items d
  | _ => run (raise (AttributeError "object has no attribute 'items'"))
  end)).





End Console.

(** A program that only prints: it leaves the object and the world as
    they were and adds to the output. *)
Definition only_prints {A : Type} (m : program A) : Prop :=
  forall self w out, exists c suffix, m self w out = (c, self, w, out ++ suffix).

(** A console that takes every string without surrogates, as UTF-8 does. *)
Definition utf8_console (chunk : pystr) : bool :=
  match Text.encode_values chunk with
  | Some _ => true
  | None => false
  end.

(** * Properties *)

(** ** Strings and dictionaries *)

Lemma str_eqb_refl (a : pystr) : str_eqb a a = true.
Proof.
  induction a as [|x a IH]; simpl; [reflexivity|].
  now rewrite N.eqb_refl, IH.
Qed.

Lemma str_eqb_eq (a b : pystr) : str_eqb a b = true <-> a = b.
Proof.
  split.
  - revert b; induction a as [|x a IH]; intros [|y b]; simpl; try discriminate; auto.
    intros H; apply andb_true_iff in H as [Hx Hr].
    apply N.eqb_eq in Hx; subst; f_equal; auto.
  - intros ->; apply str_eqb_refl.
Qed.

Lemma str_eqb_neq (a b : pystr) : a <> b -> str_eqb a b = false.
Proof.
  intros H; destruct (str_eqb a b) eqn:E; [|reflexivity].
  apply str_eqb_eq in E; contradiction.
Qed.

Lemma dict_get_set_same (d : dict) (k : pystr) (v : pyval) :
  dict_get (dict_set d k v) k = Some v.
Proof.
  induction d as [|[k' v'] d IH]; simpl.
  - now rewrite str_eqb_refl.
  - destruct (str_eqb k' k) eqn:E; simpl; rewrite E; auto.
Qed.

Lemma dict_get_set_other (d : dict) (k k' : pystr) (v : pyval) :
  k' <> k -> dict_get (dict_set d k v) k' = dict_get d k'.
Proof.
  intros Hne; induction d as [|[k0 v0] d IH]; simpl.
  - rewrite str_eqb_neq; auto.
  - destruct (str_eqb k0 k) eqn:E; simpl.
    + apply str_eqb_eq in E; subst k0.
      rewrite (str_eqb_neq k k'); auto.
    + now rewrite IH.
Qed.

Lemma dict_get_del_same (d : dict) (k : pystr) : dict_get (dict_del d k) k = None.
Proof.
  induction d as [|[k' v'] d IH]; simpl; [reflexivity|].
  destruct (str_eqb k' k) eqn:E; simpl; [assumption|].
  now rewrite E.
Qed.

Lemma dict_get_del_other (d : dict) (k k' : pystr) :
  k' <> k -> dict_get (dict_del d k) k' = dict_get d k'.
Proof.
  intros Hne; induction d as [|[k0 v0] d IH]; simpl; [reflexivity|].
  destruct (str_eqb k0 k) eqn:E; simpl.
  - apply str_eqb_eq in E; subst k0.
    rewrite (str_eqb_neq k k'); auto.
  - now rewrite IH.
Qed.

Lemma others_set (d : dict) (k : pystr) (v : pyval) :
  dict_get d k <> None -> others k (dict_set d k v) = others k d.
Proof.
  induction d as [|[k' v'] d IH]; simpl; [congruence|].
  destruct (str_eqb k' k) eqn:E; simpl; rewrite E; simpl; [reflexivity|].
  intros H; f_equal; auto.
Qed.

Lemma others_del (d : dict) (k : pystr) : others k (dict_del d k) = others k d.
Proof.
  unfold others, dict_del.
  induction d as [|[k' v'] d IH]; simpl; [reflexivity|].
  destruct (str_eqb k' k) eqn:E; simpl; [assumption|].
  rewrite E; simpl; now f_equal.
Qed.

Lemma dict_get_In (d : dict) (k : pystr) (v : pyval) :
  dict_get d k = Some v -> In (k, v) d.
Proof.
  induction d as [|[k' v'] d IH]; simpl; [discriminate|].
  destruct (str_eqb k' k) eqn:E.
  - apply str_eqb_eq in E; intros [= ->]; subst; now left.
  - intros H; right; auto.
Qed.

Lemma Forall_dict_set (P : pystr * pyval -> Prop) (d : dict) (k : pystr) (v : pyval) :
  (forall k0, P (k0, v)) -> Forall P d -> Forall P (dict_set d k v).
Proof.
  intros Hv; induction 1 as [|[k' v'] d Hx Hd IH]; simpl.
  - constructor; auto.
  - destruct (str_eqb k' k); constructor; auto.
Qed.

Lemma Forall_dict_del (P : pystr * pyval -> Prop) (d : dict) (k : pystr) :
  Forall P d -> Forall P (dict_del d k).
Proof.
  intros H; unfold dict_del.
  apply Forall_forall; intros x Hx.
  apply filter_In in Hx as [Hx _].
  revert x Hx; now apply Forall_forall.
Qed.

Lemma dict_keys_set_absent (d : dict) (k : pystr) (v : pyval) :
  dict_get d k = None -> dict_keys (dict_set d k v) = dict_keys d ++ [k].
Proof.
  induction d as [|[k' v'] d IH]; simpl; [reflexivity|].
  destruct (str_eqb k' k) eqn:E; [discriminate|].
  intros H; simpl; f_equal; auto.
Qed.

Lemma dict_keys_set_present (d : dict) (k : pystr) (v : pyval) :
  dict_get d k <> None -> dict_keys (dict_set d k v) = dict_keys d.
Proof.
  induction d as [|[k' v'] d IH]; simpl; [congruence|].
  destruct (str_eqb k' k) eqn:E; simpl; [reflexivity|].
  intros H; f_equal; auto.
Qed.

Lemma dict_get_None_keys (d : dict) (k : pystr) :
  dict_get d k = None <-> ~ In k (dict_keys d).
Proof.
  induction d as [|[k' v'] d IH]; simpl; [tauto|].
  destruct (str_eqb k' k) eqn:E.
  - apply str_eqb_eq in E; subst; split; [discriminate|tauto].
  - rewrite IH; split; intros H; [intros [->|Hin]|]; auto.
    now rewrite str_eqb_refl in E.
Qed.

Lemma NoDup_dict_set (d : dict) (k : pystr) (v : pyval) :
  NoDup (dict_keys d) -> NoDup (dict_keys (dict_set d k v)).
Proof.
  intros H; destruct (dict_get d k) eqn:E.
  - rewrite dict_keys_set_present; [assumption|congruence].
  - rewrite dict_keys_set_absent by assumption.
    apply NoDup_app; [assumption|repeat constructor; intros []|].
    intros x Hx [<-|[]]; apply dict_get_None_keys in E; contradiction.
Qed.

Lemma NoDup_dict_del (d : dict) (k : pystr) :
  NoDup (dict_keys d) -> NoDup (dict_keys (dict_del d k)).
Proof.
  unfold dict_keys, dict_del.
  induction d as [|[k' v'] d IH]; simpl; [auto|].
  intros H; inversion H as [|? ? Hnin Hd]; subst.
  destruct (str_eqb k' k); simpl; auto.
  constructor; auto.
  intros Hin; apply Hnin.
  apply in_map_iff in Hin as [x [Hx Hin]].
  apply filter_In in Hin as [Hin _].
  apply in_map_iff; eauto.
Qed.

(** ** Adding *)

#[local] Arguments str : simpl never.
#[local] Arguments Json.int_repr : simpl never.

Ltac unfold_method :=
  unfold add_item, remove_item, get_qty, check_low_items, stock_get, stock_contains,
    stock_getitem, stock_setitem, stock_delitem, get_stock, set_stock,
    get_file_name, logging_info, logging_warning, logging_error, emit,
    bind, ret, raise, lift, completion_of, object_after, world_after in *;
  cbn in *.

Lemma py_le_int (v : pyval) (q n : Z) :
  as_int v = Some q -> py_le v (VInt n) = Normal (q <=? n)%Z.
Proof.
  intros H; unfold py_le, py_compare; rewrite H; simpl.
  unfold Z.leb; now destruct (q ?= n)%Z.
Qed.

Lemma py_lt_int (v t : pyval) (q n : Z) :
  as_int v = Some q -> as_int t = Some n -> py_lt v t = Normal (q <? n)%Z.
Proof.
  intros H1 H2; unfold py_lt, py_compare; rewrite H1, H2.
  unfold Z.ltb; now destruct (q ?= n)%Z.
Qed.

Lemma isinstance_int_as_int (v : pyval) :
  isinstance_int v = true <-> exists q, as_int v = Some q.
Proof.
  destruct v as [| [|] | | | | |]; simpl; split;
    try discriminate; eauto; intros [q H]; discriminate.
Qed.

Lemma as_int_isinstance (v : pyval) (q : Z) :
  as_int v = Some q -> isinstance_int v = true.
Proof. intros H; apply isinstance_int_as_int; eauto. Qed.

(** C5.  [add_item] checks its arguments in the order of the source: an
    item that is no string raises the item [TypeError] whatever the
    quantity is; with a string item, a quantity that is no integer raises
    the quantity [TypeError]; with a string item and an integer quantity
    not above zero it raises [ValueError].  In each case the object (and
    the world) is left as it was. *)
Theorem add_item_validation (item qty : pyval) (self : InventoryManager) (w : world) :
  (isinstance_str item = false ->
   add_item item qty self w =
     (Raised (TypeError "Item name must be a string."), self, w)) /\
  (isinstance_str item = true -> isinstance_int qty = false ->
   add_item item qty self w =
     (Raised (TypeError "Quantity must be an integer."), self, w)) /\
  (isinstance_str item = true ->
   forall q : Z, as_int qty = Some q -> (q <= 0)%Z ->
   add_item item qty self w =
     (Raised (ValueError "Quantity must be greater than zero."), self, w)).
Proof.
  repeat split.
  - intros Hi; destruct item; simpl in Hi; try discriminate; reflexivity.
  - intros Hi Hq; destruct item; simpl in Hi; try discriminate.
    unfold add_item; now rewrite Hq.
  - intros Hi q Hq Hle; destruct item; simpl in Hi; try discriminate.
    unfold add_item; rewrite (as_int_isinstance _ _ Hq); simpl.
    unfold bind, lift; rewrite (py_le_int _ _ 0 Hq).
    apply Z.leb_le in Hle; now rewrite Hle.
Qed.

Lemma add_item_validation_witness :
  add_item (VInt 42) (VInt 1) (__init__ None) (mkWorld (fun _ => Absent) []) =
    (Raised (TypeError "Item name must be a string."), __init__ None,
     mkWorld (fun _ => Absent) []) /\
  add_item (VStr (str "pear")) (VStr (str "1")) (__init__ None)
           (mkWorld (fun _ => Absent) []) =
    (Raised (TypeError "Quantity must be an integer."), __init__ None,
     mkWorld (fun _ => Absent) []) /\
  add_item (VStr (str "pear")) (VInt (-1)) (__init__ None)
           (mkWorld (fun _ => Absent) []) =
    (Raised (ValueError "Quantity must be greater than zero."), __init__ None,
     mkWorld (fun _ => Absent) []).
Proof.
  split; [|split].
  - apply (proj1 (add_item_validation (VInt 42) (VInt 1) (__init__ None)
                    (mkWorld (fun _ => Absent) []))); reflexivity.
  - apply (proj1 (proj2 (add_item_validation (VStr (str "pear")) (VStr (str "1"))
                    (__init__ None) (mkWorld (fun _ => Absent) []))));
      reflexivity.
  - apply (proj2 (proj2 (add_item_validation (VStr (str "pear")) (VInt (-1))
                    (__init__ None) (mkWorld (fun _ => Absent) []))) eq_refl (-1)%Z);
      [reflexivity | lia].
Defined.

(** What [add_item] does once its arguments are accepted, when the
    quantity on record is an integer. *)
Lemma add_item_ok (k : pystr) (qty prior : pyval) (n p : Z) (d : dict)
    (self : InventoryManager) (w : world) :
  as_int qty = Some n -> (0 < n)%Z ->
  stock_data self = VDict d ->
  match dict_get d k with Some v => v | None => VInt 0 end = prior ->
  as_int prior = Some p ->
  add_item (VStr k) qty self w =
    (Normal tt,
     mkInventoryManager (file_name self) (VDict (dict_set d k (VInt (p + n)))),
     mkWorld (files w) (log w ++ [(INFO, str "Added " ++ fmt_d qty ++ str " of " ++ k)])).
Proof.
  intros Hq Hpos Hs Hprior Hp.
  unfold add_item; rewrite (as_int_isinstance _ _ Hq); simpl negb; cbv iota.
  unfold bind at 1; unfold lift at 1; rewrite (py_le_int _ _ 0 Hq).
  replace (n <=? 0)%Z with false by (symmetry; apply Z.leb_gt; lia).
  unfold_method; rewrite Hs.
  assert (Hadd : py_add prior qty = Normal (VInt (p + n))).
  { unfold py_add; now rewrite Hp, Hq. }
  destruct (dict_get d k) as [v|]; subst prior; rewrite Hadd; cbn;
    rewrite Hs; reflexivity.
Qed.

Lemma get_qty_dict (k : pystr) (d : dict) (self : InventoryManager) (w : world) :
  stock_data self = VDict d ->
  get_qty (VStr k) self w =
    (Normal (match dict_get d k with Some v => v | None => VInt 0 end), self, w).
Proof.
  intros Hs; unfold_method; rewrite Hs; now destruct (dict_get d k).
Qed.

Lemma get_qty_normal (k : pystr) (v : pyval) (self : InventoryManager) (w : world) :
  completion_of (get_qty (VStr k) self w) = Normal v ->
  exists d, stock_data self = VDict d /\
            v = match dict_get d k with Some x => x | None => VInt 0 end.
Proof.
  unfold_method; destruct (stock_data self) as [| | | | | |d]; try discriminate.
  exists d; split; [reflexivity|].
  destruct (dict_get d k); cbn in H; congruence.
Qed.

(** C4.  After [add_item(item, qty)] with a string item and an integer
    quantity above zero, [get_qty(item)] returns the quantity it returned
    before (0 for an absent item) plus [qty]. *)
Theorem add_item_then_get_qty (k : pystr) (qty prior : pyval) (n p : Z)
    (self : InventoryManager) (w : world) :
  as_int qty = Some n -> (0 < n)%Z ->
  completion_of (get_qty (VStr k) self w) = Normal prior ->
  as_int prior = Some p ->
  let r := add_item (VStr k) qty self w in
  completion_of r = Normal tt /\
  completion_of (get_qty (VStr k) (object_after r) (world_after r))
    = Normal (VInt (p + n)) /\
  (forall d, stock_data self = VDict d -> dict_get d k = None -> p = 0%Z).
Proof.
  intros Hq Hpos Hget Hp.
  destruct (get_qty_normal _ _ _ _ Hget) as [d [Hs Hprior]].
  intros r; subst r.
  rewrite (add_item_ok k qty prior n p d self w Hq Hpos Hs (eq_sym Hprior) Hp).
  split; [reflexivity|split].
  - unfold object_after, world_after; cbn [fst snd].
    rewrite (get_qty_dict k (dict_set d k (VInt (p + n)))) by reflexivity.
    unfold completion_of; cbn [fst snd]; now rewrite dict_get_set_same.
  - intros d' Hs' Hnone; rewrite Hs in Hs'; injection Hs' as <-.
    rewrite Hnone in Hprior; subst prior; cbn in Hp; congruence.
Qed.

Lemma add_item_then_get_qty_witness :
  completion_of (add_item (VStr (str "apple")) (VInt 10) (__init__ None) empty_world)
    = Normal tt /\
  completion_of
    (get_qty (VStr (str "apple"))
       (object_after (add_item (VStr (str "apple")) (VInt 10) (__init__ None) empty_world))
       (world_after (add_item (VStr (str "apple")) (VInt 10) (__init__ None) empty_world)))
    = Normal (VInt (0 + 10)) /\
  (forall d, stock_data (__init__ None) = VDict d ->
             dict_get d (str "apple") = None -> 0%Z = 0%Z).
Proof.
  apply (add_item_then_get_qty (str "apple") (VInt 10) (VInt 0) 10 0
           (__init__ None) empty_world); [reflexivity | lia | reflexivity | reflexivity].
Defined.

Lemma dict_set_set (d : dict) (k : pystr) (v v' : pyval) :
  dict_set (dict_set d k v) k v' = dict_set d k v'.
Proof.
  induction d as [|[k0 v0] d IH]; cbn.
  - now rewrite str_eqb_refl.
  - destruct (str_eqb k0 k) eqn:E; cbn; rewrite E; [reflexivity|now f_equal].
Qed.

(** C9.  Two calls [add_item(item, a)], [add_item(item, b)] with a string
    item and integers above zero leave the same stock as the one call
    [add_item(item, a + b)] from the same state. *)
Theorem add_item_twice (k : pystr) (qa qb prior : pyval) (a b p : Z)
    (self : InventoryManager) (w : world) :
  as_int qa = Some a -> as_int qb = Some b -> (0 < a)%Z -> (0 < b)%Z ->
  completion_of (get_qty (VStr k) self w) = Normal prior ->
  as_int prior = Some p ->
  let r1 := add_item (VStr k) qa self w in
  let r2 := add_item (VStr k) qb (object_after r1) (world_after r1) in
  let r := add_item (VStr k) (VInt (a + b)) self w in
  py_add qa qb = Normal (VInt (a + b)) /\
  completion_of r1 = Normal tt /\ completion_of r2 = Normal tt /\
  completion_of r = Normal tt /\
  stock_data (object_after r2) = stock_data (object_after r).
Proof.
  intros Ha Hb Hpa Hpb Hget Hp.
  destruct (get_qty_normal _ _ _ _ Hget) as [d [Hs Hprior]].
  intros r1 r2 r; subst r1 r2 r.
  split; [unfold py_add; now rewrite Ha, Hb|].
  rewrite (add_item_ok k qa prior a p d self w Ha Hpa Hs (eq_sym Hprior) Hp).
  rewrite (add_item_ok k (VInt (a + b)) prior (a + b) p d self w eq_refl
             ltac:(lia) Hs (eq_sym Hprior) Hp).
  unfold object_after, world_after, completion_of; cbn [fst snd].
  erewrite (add_item_ok k qb (VInt (p + a)) b (p + a)
              (dict_set d k (VInt (p + a)))); eauto.
  - cbn [fst snd stock_data]; rewrite dict_set_set.
    repeat split; do 3 f_equal; lia.
  - now rewrite dict_get_set_same.
Qed.

Lemma add_item_twice_witness :
  py_add (VInt 2) (VInt 3) = Normal (VInt (2 + 3)) /\
  completion_of (add_item (VStr (str "pear")) (VInt 2) (__init__ None) empty_world)
    = Normal tt /\
  completion_of
    (add_item (VStr (str "pear")) (VInt 3)
       (object_after (add_item (VStr (str "pear")) (VInt 2) (__init__ None) empty_world))
       (world_after (add_item (VStr (str "pear")) (VInt 2) (__init__ None) empty_world)))
    = Normal tt /\
  completion_of (add_item (VStr (str "pear")) (VInt (2 + 3)) (__init__ None) empty_world)
    = Normal tt /\
  stock_data
    (object_after
       (add_item (VStr (str "pear")) (VInt 3)
          (object_after (add_item (VStr (str "pear")) (VInt 2) (__init__ None) empty_world))
          (world_after (add_item (VStr (str "pear")) (VInt 2) (__init__ None) empty_world))))
  = stock_data
      (object_after
         (add_item (VStr (str "pear")) (VInt (2 + 3)) (__init__ None) empty_world)).
Proof.
  apply (add_item_twice (str "pear") (VInt 2) (VInt 3) (VInt 0) 2 3 0
           (__init__ None) empty_world);
    [reflexivity | reflexivity | lia | lia | reflexivity | reflexivity].
Defined.

(** ** Removing *)

Lemma dict_del_set (d : dict) (k : pystr) (v : pyval) :
  dict_del (dict_set d k v) k = dict_del d k.
Proof.
  unfold dict_del; induction d as [|[k0 v0] d IH]; cbn.
  - now rewrite str_eqb_refl.
  - destruct (str_eqb k0 k) eqn:E; cbn; rewrite E; cbn; [reflexivity|now f_equal].
Qed.

(** What [remove_item] does to a present item whose quantity on record is
    an integer. *)
Lemma remove_item_ok (k : pystr) (qty old : pyval) (q n : Z) (d : dict)
    (self : InventoryManager) (w : world) :
  stock_data self = VDict d -> dict_get d k = Some old ->
  as_int old = Some q -> as_int qty = Some n ->
  remove_item (VStr k) qty self w =
    if (q - n <=? 0)%Z
    then (Normal tt,
          mkInventoryManager (file_name self) (VDict (dict_del d k)),
          mkWorld (files w)
            (log w ++ [(INFO, str "Removed all of " ++ k ++ str " (now zero or negative)")]))
    else (Normal tt,
          mkInventoryManager (file_name self) (VDict (dict_set d k (VInt (q - n)))),
          mkWorld (files w)
            (log w ++ [(INFO, str "Removed " ++ fmt_d qty ++ str " of " ++ k)])).
Proof.
  intros Hs Hget Hold Hq.
  unfold remove_item; rewrite (as_int_isinstance _ _ Hq).
  unfold_method; rewrite Hs, Hget; cbn; rewrite Hs, Hget; cbn.
  unfold py_sub; rewrite Hold, Hq; cbn; rewrite Hs; cbn.
  rewrite dict_get_set_same; cbn.
  unfold Z.leb; destruct (q - n ?= 0)%Z; cbn; try reflexivity;
    now rewrite dict_del_set.
Qed.

(** C3.  For a string item present in the stock with integer quantity [q]
    and an integer [qty], [remove_item(item, qty)] ends normally; it
    deletes the key when [q - qty <= 0] and stores [q - qty] otherwise;
    the entries under the other keys stay as they were, in their order. *)
Theorem remove_item_present (k : pystr) (qty old : pyval) (q n : Z) (d : dict)
    (self : InventoryManager) (w : world) :
  stock_data self = VDict d -> dict_get d k = Some old ->
  as_int old = Some q -> as_int qty = Some n ->
  let r := remove_item (VStr k) qty self w in
  completion_of r = Normal tt /\
  exists d' : dict,
    stock_data (object_after r) = VDict d' /\
    d' = (if (q - n <=? 0)%Z then dict_del d k else dict_set d k (VInt (q - n))) /\
    dict_get d' k = (if (q - n <=? 0)%Z then None else Some (VInt (q - n))) /\
    (forall k', k' <> k -> dict_get d' k' = dict_get d k') /\
    others k d' = others k d.
Proof.
  intros Hs Hget Hold Hq r; subst r.
  rewrite (remove_item_ok k qty old q n d self w Hs Hget Hold Hq).
  destruct (q - n <=? 0)%Z; (split; [reflexivity|]); eexists;
    (split; [reflexivity|split; [reflexivity|]]).
  - split; [apply dict_get_del_same|split; [|apply others_del]].
    intros k' Hne; now apply dict_get_del_other.
  - split; [apply dict_get_set_same|split; [|apply others_set; congruence]].
    intros k' Hne; now apply dict_get_set_other.
Qed.

Lemma remove_item_present_witness :
  let self := mkInventoryManager (str "inventory.json")
                (VDict [(str "apple", VInt 10); (str "banana", VInt 2)]) in
  let r := remove_item (VStr (str "apple")) (VInt 3) self empty_world in
  completion_of r = Normal tt /\
  exists d' : dict,
    stock_data (object_after r) = VDict d' /\
    d' = (if (10 - 3 <=? 0)%Z
          then dict_del [(str "apple", VInt 10); (str "banana", VInt 2)] (str "apple")
          else dict_set [(str "apple", VInt 10); (str "banana", VInt 2)] (str "apple")
                 (VInt (10 - 3))) /\
    dict_get d' (str "apple") = (if (10 - 3 <=? 0)%Z then None else Some (VInt (10 - 3))) /\
    (forall k', k' <> str "apple" ->
       dict_get d' k' = dict_get [(str "apple", VInt 10); (str "banana", VInt 2)] k') /\
    others (str "apple") d' =
      others (str "apple") [(str "apple", VInt 10); (str "banana", VInt 2)].
Proof.
  intros self.
  apply (remove_item_present (str "apple") (VInt 3) (VInt 10) 10 3
           [(str "apple", VInt 10); (str "banana", VInt 2)] self empty_world);
    reflexivity.
Defined.

(** C6, as the code has it.  For a string item that is not in the stock
    and an integer [qty] of any sign, [remove_item(item, qty)] ends
    normally and leaves the object as it was; it only emits a warning.
    With an item that is no string or a [qty] that is no integer, whatever
    the stock holds, [remove_item] raises [TypeError] before the item is
    looked up and changes nothing. *)
Theorem remove_item_absent (k : pystr) (qty : pyval) (d : dict)
    (self : InventoryManager) (w : world) :
  (isinstance_int qty = true ->
   stock_data self = VDict d -> dict_get d k = None ->
   remove_item (VStr k) qty self w =
     (Normal tt, self,
      mkWorld (files w)
        (log w ++ [(WARNING, str "Attempted to remove non-existent item: " ++ k)]))) /\
  (forall item : pyval,
     isinstance_str item = false \/ isinstance_int qty = false ->
     remove_item item qty self w =
       (Raised (TypeError "Invalid item name or quantity type."), self, w)).
Proof.
  split.
  - intros Hq Hs Hget; unfold remove_item; rewrite Hq.
    unfold_method; now rewrite Hs, Hget.
  - intros item [Hi|Hq]; unfold remove_item.
    + destruct item; try discriminate; reflexivity.
    + rewrite Hq; destruct item; reflexivity.
Qed.

Lemma remove_item_absent_witness :
  remove_item (VStr (str "orange")) (VInt (-1)) (__init__ None) empty_world =
    (Normal tt, __init__ None,
     mkWorld (files empty_world)
       (log empty_world ++
        [(WARNING, str "Attempted to remove non-existent item: " ++ str "orange")])) /\
  remove_item (VInt 5) (VInt (-1)) (__init__ None) empty_world =
    (Raised (TypeError "Invalid item name or quantity type."), __init__ None, empty_world).
Proof.
  split.
  - apply (proj1 (remove_item_absent (str "orange") (VInt (-1)) [] (__init__ None)
                    empty_world)); reflexivity.
  - apply (proj2 (remove_item_absent (str "orange") (VInt (-1)) [] (__init__ None)
                    empty_world)); left; reflexivity.
Defined.

(** C6, as stated, fails: with the item absent, a quantity that is no
    integer makes [remove_item] raise. *)
Lemma remove_item_raises_without_integer :
  stock_data (__init__ None) = VDict [] /\
  dict_get [] (str "orange") = None /\
  remove_item (VStr (str "orange")) VNone (__init__ None) empty_world =
    (Raised (TypeError "Invalid item name or quantity type."),
     __init__ None, empty_world).
Proof. repeat split. Qed.

(** ** The invariant of the stock *)

Lemma positive_entry_get (d : dict) (k : pystr) (v : pyval) :
  Forall positive_entry d -> dict_get d k = Some v ->
  exists q, v = VInt q /\ (0 < q)%Z.
Proof.
  intros Hd Hget; apply dict_get_In in Hget.
  rewrite Forall_forall in Hd; apply (Hd _ Hget).
Qed.

(** The object after [add_item], whatever the arguments: as before, or
    with one quantity above zero stored. *)
Lemma add_item_object (item qty : pyval) (d : dict) (self : InventoryManager) (w : world) :
  stock_data self = VDict d -> Forall positive_entry d ->
  object_after (add_item item qty self w) = self \/
  exists (k : pystr) (z : Z), (0 < z)%Z /\
    object_after (add_item item qty self w)
      = mkInventoryManager (file_name self) (VDict (dict_set d k (VInt z))).
Proof.
  intros Hs Hd.
  destruct item as [| | | |k| |]; try (left; reflexivity).
  destruct (isinstance_int qty) eqn:Hq.
  2:{ left; unfold add_item; now rewrite Hq. }
  apply isinstance_int_as_int in Hq as [n Hn].
  destruct (Z.leb_spec n 0) as [Hle|Hgt].
  { left; unfold add_item; rewrite (as_int_isinstance _ _ Hn); cbn [negb].
    unfold bind, lift; rewrite (py_le_int _ _ 0 Hn).
    apply Z.leb_le in Hle; now rewrite Hle. }
  right.
  destruct (dict_get d k) as [v|] eqn:Hget.
  - destruct (positive_entry_get d k v Hd Hget) as [p [-> Hp]].
    exists k, (p + n)%Z; split; [lia|].
    rewrite (add_item_ok k qty (VInt p) n p d self w Hn Hgt Hs);
      [reflexivity|now rewrite Hget|reflexivity].
  - exists k, (0 + n)%Z; split; [lia|].
    rewrite (add_item_ok k qty (VInt 0) n 0 d self w Hn Hgt Hs);
      [reflexivity|now rewrite Hget|reflexivity].
Qed.

(** The object after [remove_item], whatever the arguments: as before, or
    with one key deleted, or with one quantity above zero stored. *)
Lemma remove_item_object (item qty : pyval) (d : dict) (self : InventoryManager) (w : world) :
  stock_data self = VDict d -> Forall positive_entry d ->
  object_after (remove_item item qty self w) = self \/
  exists k : pystr,
    object_after (remove_item item qty self w)
      = mkInventoryManager (file_name self) (VDict (dict_del d k)) \/
    exists z : Z, (0 < z)%Z /\
      object_after (remove_item item qty self w)
        = mkInventoryManager (file_name self) (VDict (dict_set d k (VInt z))).
Proof.
  intros Hs Hd.
  destruct item as [| | | |k| |]; try (left; reflexivity).
  destruct (isinstance_int qty) eqn:Hq.
  2:{ left; unfold remove_item; now rewrite Hq. }
  destruct (dict_get d k) as [v|] eqn:Hget.
  2:{ left; unfold remove_item; rewrite Hq; unfold_method; now rewrite Hs, Hget. }
  apply isinstance_int_as_int in Hq as [n Hn].
  destruct (positive_entry_get d k v Hd Hget) as [q [-> Hq]].
  right; exists k.
  rewrite (remove_item_ok k qty (VInt q) q n d self w Hs Hget eq_refl Hn).
  destruct (Z.leb_spec (q - n) 0); [left; reflexivity|].
  right; exists (q - n)%Z; split; [lia|reflexivity].
Qed.

Lemma positive_set (k0 : pystr) (z : Z) : (0 < z)%Z -> positive_entry (k0, VInt z).
Proof. intros H; exists z; auto. Qed.

Lemma add_item_positive (item qty : pyval) (self : InventoryManager) (w : world) :
  positive_stock self -> positive_stock (object_after (add_item item qty self w)).
Proof.
  intros [d [Hs Hd]].
  destruct (add_item_object item qty d self w Hs Hd) as [->|[k [z [Hz ->]]]].
  - exists d; auto.
  - eexists; split; [reflexivity|].
    apply Forall_dict_set; auto; intros; now apply positive_set.
Qed.


Lemma reachable_well_formed (self : InventoryManager) :
  reachable self -> well_formed_stock self.
Proof.
  induction 1 as [name|self c w Hr [d [Hs [Hnd Hd]]]].
  - exists []; repeat split; constructor.
  - destruct c as [item qty|item qty]; unfold run_call.
    + destruct (add_item_object item qty d self w Hs Hd) as [->|[k [z [Hz ->]]]].
      * exists d; auto.
      * eexists; split; [reflexivity|split].
        -- now apply NoDup_dict_set.
        -- apply Forall_dict_set; auto; intros; now apply positive_set.
    + destruct (remove_item_object item qty d self w Hs Hd)
        as [->|[k [->|[z [Hz ->]]]]].
      * exists d; auto.
      * eexists; split; [reflexivity|split].
        -- now apply NoDup_dict_del.
        -- now apply Forall_dict_del.
      * eexists; split; [reflexivity|split].
        -- now apply NoDup_dict_set.
        -- apply Forall_dict_set; auto; intros; now apply positive_set.
Qed.

Lemma reachable_positive (self : InventoryManager) :
  reachable self -> positive_stock self.
Proof.
  intros H; destruct (reachable_well_formed self H) as [d [Hs [_ Hd]]].
  exists d; auto.
Qed.

(** C10.  In every state that a fresh store reaches by calls of [add_item]
    and [remove_item], [get_qty] of a string item returns an integer that
    is not negative: 0 for an absent item, above zero for a present one. *)
Theorem get_qty_nonnegative (self : InventoryManager) (k : pystr) (w : world) :
  reachable self ->
  exists (d : dict) (q : Z),
    stock_data self = VDict d /\
    get_qty (VStr k) self w = (Normal (VInt q), self, w) /\
    (0 <= q)%Z /\
    (dict_get d k = None -> q = 0%Z) /\
    (dict_get d k <> None -> (0 < q)%Z).
Proof.
  intros Hr; destruct (reachable_positive self Hr) as [d [Hs Hd]].
  rewrite (get_qty_dict k d self w Hs).
  destruct (dict_get d k) as [v|] eqn:Hget.
  - destruct (positive_entry_get d k v Hd Hget) as [q [-> Hq]].
    exists d, q; split; [assumption|split; [reflexivity|]].
    rewrite Hget; split; [lia|split; [intros; discriminate|auto]].
  - exists d, 0%Z; split; [assumption|split; [reflexivity|]].
    split; [lia|split; [reflexivity|congruence]].
Qed.

Lemma get_qty_nonnegative_witness :
  exists (d : dict) (q : Z),
    stock_data (object_after (run_call (CallAdd (VStr (str "apple")) (VInt 10))
                                (__init__ None) empty_world)) = VDict d /\
    get_qty (VStr (str "apple"))
      (object_after (run_call (CallAdd (VStr (str "apple")) (VInt 10))
                       (__init__ None) empty_world)) empty_world
    = (Normal (VInt q),
       object_after (run_call (CallAdd (VStr (str "apple")) (VInt 10))
                       (__init__ None) empty_world), empty_world) /\
    (0 <= q)%Z /\
    (dict_get d (str "apple") = None -> q = 0%Z) /\
    (dict_get d (str "apple") <> None -> (0 < q)%Z).
Proof.
  apply (get_qty_nonnegative
           (object_after (run_call (CallAdd (VStr (str "apple")) (VInt 10))
                            (__init__ None) empty_world))
           (str "apple") empty_world).
  apply reach_call, reach_init.
Defined.

(** ** Loading *)

Lemma json_load_raises (c : list Text.byte) (e : exn) :
  json_load c = Raised e -> e = UnicodeDecodeError \/ e = JSONDecodeError.
Proof.
  unfold json_load, file_read.
  destruct (Text.decode c) as [t|]; [|intros [= <-]; now left].
  unfold Json.loads.
  destruct (Json.scan_once _ _) as [[v r]| |]; try discriminate.
  - destruct (Json.skip_ws r); [discriminate|intros [= <-]; now right].
  - intros [= <-]; now right.
Qed.

(** [load_data], case by case on what the file name denotes and on what
    [json.load] makes of the file. *)
Lemma load_data_unfold (self : InventoryManager) (w : world) :
  load_data self w =
    match files w (file_name self) with
    | Absent =>
        (Normal tt, mkInventoryManager (file_name self) (VDict []),
         mkWorld (files w)
           (log w ++ [(WARNING, str "File " ++ file_name self
                                ++ str " not found, starting with empty data.")]))
    | Directory => (Raised IsADirectoryError, self, w)
    | Regular c =>
        match json_load c with
        | Normal v =>
            (Normal tt, mkInventoryManager (file_name self) v,
             mkWorld (files w)
               (log w ++ [(INFO, str "Data loaded successfully from " ++ file_name self)]))
        | Raised UnicodeDecodeError => (Raised UnicodeDecodeError, self, w)
        | Raised _ =>
            (Normal tt, mkInventoryManager (file_name self) (VDict []),
             mkWorld (files w)
               (log w ++ [(ERROR, str "Invalid JSON format in " ++ file_name self
                                  ++ str ".")]))
        | Unmodelled => (Unmodelled, self, w)
        end
    end.
Proof.
  unfold load_data, try_except, open_read; unfold_method.
  destruct (files w (file_name self)) as [| |c]; try reflexivity.
  destruct (json_load c) as [v|e|] eqn:E; try reflexivity.
  destruct (json_load_raises c e E) as [-> | ->]; reflexivity.
Qed.




(** ** Low stock *)

(** The entries whose integer quantity is below [t]. *)
Lemma low_items_int (d : dict) (threshold : pyval) (t : Z) :
  as_int threshold = Some t ->
  Forall (fun kv => exists q, as_int (snd kv) = Some q) d ->
  low_items d threshold =
    Normal (map fst (filter (fun kv =>
                               match as_int (snd kv) with
                               | Some q => (q <? t)%Z
                               | None => false
                               end) d)).
Proof.
  intros Ht; induction 1 as [|[k v] d [q Hq] Hd IH]; [reflexivity|].
  cbn [low_items filter snd] in *.
  rewrite (py_lt_int v threshold q t Hq Ht), IH, Hq.
  now destruct (q <? t)%Z.
Qed.

(** C8.  On a stock of integer quantities, [check_low_items(threshold)]
    returns the names whose quantity is below the threshold (5 when the
    argument is left out), in the order of the stock, and changes neither
    the object nor the world; an empty stock gives the empty list; the stock
    with 7 apples and 2 bananas gives the one name [banana] at threshold
    5. *)
Theorem check_low_items_spec :
  (forall (d : dict) (threshold : option pyval) (t : Z)
          (self : InventoryManager) (w : world),
     stock_data self = VDict d ->
     Forall (fun kv => exists q, as_int (snd kv) = Some q) d ->
     as_int (match threshold with Some v => v | None => VInt 5 end) = Some t ->
     check_low_items threshold self w =
       (Normal (map fst (filter (fun kv =>
                                   match as_int (snd kv) with
                                   | Some q => (q <? t)%Z
                                   | None => false
                                   end) d)), self, w)) /\
  (forall (threshold : option pyval) (self : InventoryManager) (w : world),
     stock_data self = VDict [] ->
     check_low_items threshold self w = (Normal [], self, w)) /\
  (forall (threshold : option pyval) (name : pystr) (w : world),
     threshold = None \/ threshold = Some (VInt 5) ->
     let self := mkInventoryManager name
                   (VDict [(str "apple", VInt 7); (str "banana", VInt 2)]) in
     check_low_items threshold self w = (Normal [str "banana"], self, w)).
Proof.
  split; [|split].
  - intros d threshold t self w Hs Hd Ht.
    unfold check_low_items; unfold_method; rewrite Hs.
    now rewrite (low_items_int d _ t Ht Hd).
  - intros threshold self w Hs.
    unfold check_low_items; unfold_method; now rewrite Hs.
  - intros threshold name w [-> | ->]; reflexivity.
Qed.

Lemma check_low_items_spec_witness :
  check_low_items (Some (VInt 3))
    (mkInventoryManager (str "inventory.json")
       (VDict [(str "apple", VInt 7); (str "banana", VInt 2); (str "kiwi", VBool true)]))
    empty_world
  = (Normal [str "banana"; str "kiwi"],
     mkInventoryManager (str "inventory.json")
       (VDict [(str "apple", VInt 7); (str "banana", VInt 2); (str "kiwi", VBool true)]),
     empty_world) /\
  check_low_items None (__init__ None) empty_world = (Normal [], __init__ None, empty_world) /\
  check_low_items None
    (mkInventoryManager (str "inventory.json")
       (VDict [(str "apple", VInt 7); (str "banana", VInt 2)])) empty_world
  = (Normal [str "banana"],
     mkInventoryManager (str "inventory.json")
       (VDict [(str "apple", VInt 7); (str "banana", VInt 2)]), empty_world).
Proof.
  split; [|split].
  - apply (proj1 check_low_items_spec
             [(str "apple", VInt 7); (str "banana", VInt 2); (str "kiwi", VBool true)]
             (Some (VInt 3)) 3%Z); [reflexivity| |reflexivity].
    repeat constructor; cbn; eauto.
  - apply (proj1 (proj2 check_low_items_spec)); reflexivity.
  - apply (proj2 (proj2 check_low_items_spec) None (str "inventory.json") empty_world).
    now left.
Defined.

(** ** The JSON encoder and decoder on strings *)

Ltac Zify.zify_post_hook ::= Z.to_euclidean_division_equations.




















(** ** The JSON encoder and decoder on integers *)


Lemma is_digit_bounds (c : N) : Json.is_digit c = true <-> 48 <= c <= 57.
Proof.
  unfold Json.is_digit; rewrite andb_true_iff, !N.leb_le; tauto.
Qed.












(** ** The JSON encoder and decoder on stocks of integers *)

Lemma sequence_entries (d : list (pystr * Z)) :
  Json.sequence
    (map (fun kv =>
            match Json.encode 1 (snd kv) with
            | Some t => Some (Json.encode_basestring_ascii (fst kv) ++ 58 :: 32 :: t)
            | None => None
            end) (int_dict d))
  = Some (map entry_text d).
Proof.
  induction d as [|[k z] d IH]; [reflexivity|].
  change (int_dict ((k, z) :: d)) with ((k, VInt z) :: int_dict d).
  cbn [map Json.sequence fst snd Json.encode].
  rewrite IH; unfold entry_text, entry_tail, Json.encode_basestring_ascii.
  cbn [fst snd app]; now rewrite <- app_assoc.
Qed.

Lemma join_items_entries (kz : pystr * Z) (r : list (pystr * Z)) :
  Json.join_items 1 (map entry_text (kz :: r)) ++ [10; 125] = 34 :: members_tail kz r.
Proof.
  revert kz; induction r as [|kz' r IH]; intros kz; [reflexivity|].
  specialize (IH kz').
  change (Json.join_items 1 (map entry_text (kz :: kz' :: r)))
    with (entry_text kz ++ 44 :: [10; 32; 32; 32; 32]
          ++ Json.join_items 1 (map entry_text (kz' :: r))).
  rewrite <- app_assoc; cbn [app]; rewrite IH; reflexivity.
Qed.

(** The encoder's text of a dictionary of integers. *)
Lemma dumps_int_dict (d : list (pystr * Z)) :
  Json.dumps (VDict (int_dict d)) = Some (dict_text d).
Proof.
  unfold Json.dumps; cbn [Json.encode]; rewrite sequence_entries.
  destruct d as [|kz r]; [reflexivity|].
  unfold Json.bracket, dict_text.
  change (map entry_text (kz :: r)) with (entry_text kz :: map entry_text r) at 1.
  cbv iota.
  change (Json.newline_indent 0 ++ [125]) with [10; 125].
  rewrite join_items_entries; reflexivity.
Qed.










(** ** The text that [save_data] writes *)

Lemma plain_bounds (c : N) : plain c = true <-> c = 10 \/ 32 <= c <= 126.
Proof.
  unfold plain; rewrite orb_true_iff, andb_true_iff, N.eqb_eq, !N.leb_le; tauto.
Qed.

Lemma plain_hex_digit (d : N) : d < 16 -> plain (Json.hex_digit d) = true.
Proof.
  intros H; apply plain_bounds; unfold Json.hex_digit.
  destruct (N.ltb_spec d 10); lia.
Qed.

Lemma plain_u_escape (n : N) : Forall (fun c => plain c = true) (Json.u_escape n).
Proof.
  unfold Json.u_escape; repeat constructor; apply plain_hex_digit; lia.
Qed.

Lemma plain_escape_char (c : N) : Forall (fun x => plain x = true) (Json.escape_char c).
Proof.
  unfold Json.escape_char.
  repeat match goal with
         | |- context [if ?a =? ?b then _ else _] =>
             destruct (a =? b); [repeat constructor|]
         end.
  destruct (N.leb_spec 32 c); cbn [andb].
  - destruct (N.leb_spec c 126).
    + repeat constructor; apply plain_bounds; lia.
    + destruct (c <? 65536); [apply plain_u_escape|].
      apply Forall_app; split; apply plain_u_escape.
  - destruct (c <? 65536); [apply plain_u_escape|].
    apply Forall_app; split; apply plain_u_escape.
Qed.

Lemma plain_escaped (k : pystr) :
  Forall (fun x => plain x = true) (flat_map Json.escape_char k).
Proof.
  induction k as [|c k IH]; cbn [flat_map]; [constructor|].
  apply Forall_app; split; [apply plain_escape_char|assumption].
Qed.

Lemma plain_digits (u : Decimal.uint) :
  Forall (fun x => plain x = true) (Json.digits_of_uint u).
Proof.
  induction u; cbn [Json.digits_of_uint]; constructor; auto.
Qed.

Lemma plain_int_repr (z : Z) : Forall (fun x => plain x = true) (Json.int_repr z).
Proof.
  unfold Json.int_repr; destruct (Z.to_int z);
    [|constructor; [reflexivity|]]; apply plain_digits.
Qed.

Lemma plain_entry_tail (kz : pystr * Z) :
  Forall (fun x => plain x = true) (entry_tail kz).
Proof.
  unfold entry_tail; apply Forall_app; split; [apply plain_escaped|].
  repeat (constructor; [reflexivity|]); apply plain_int_repr.
Qed.

Lemma plain_members_tail (kz : pystr * Z) (r : list (pystr * Z)) :
  Forall (fun x => plain x = true) (members_tail kz r).
Proof.
  revert kz; induction r as [|kz' r IH]; intros kz; cbn [members_tail];
    apply Forall_app; split; try apply plain_entry_tail.
  - repeat constructor.
  - repeat (constructor; [reflexivity|]); apply IH.
Qed.

Lemma plain_dict_text (d : list (pystr * Z)) :
  Forall (fun x => plain x = true) (dict_text d).
Proof.
  destruct d as [|kz r]; cbn [dict_text]; [repeat constructor|].
  repeat (constructor; [reflexivity|]); apply plain_members_tail.
Qed.

(** Plain text is its own UTF-8 form, and reads back as it is. *)
Lemma encode_plain (s : pystr) :
  Forall (fun x => plain x = true) s -> Text.encode s = Some (bytes_of s).
Proof.
  intros H; unfold Text.encode, bytes_of.
  assert (E : Text.encode_values s = Some s); [|now rewrite E].
  induction H as [|c s Hc Hs IH]; [reflexivity|].
  apply plain_bounds in Hc.
  cbn [Text.encode_values]; unfold Text.encode_char.
  replace (c <? 128) with true by (symmetry; apply N.ltb_lt; lia).
  now rewrite IH.
Qed.

Lemma byte_of_value_to_N (c : N) : c < 256 -> Strings.Byte.to_N (Text.byte_of_value c) = c.
Proof.
  intros H; unfold Text.byte_of_value.
  destruct (Strings.Byte.of_N c) as [b|] eqn:E.
  - now apply Strings.Byte.to_of_N.
  - apply Strings.Byte.of_N_None_iff in E; lia.
Qed.




(** ** Saving, then loading *)

Lemma write_file_same (fs : pystr -> node) (name : pystr) (content : list Text.byte) :
  write_file fs name content name = Regular content.
Proof. unfold write_file; now rewrite str_eqb_refl. Qed.

Lemma save_data_int_dict (d : list (pystr * Z)) (self : InventoryManager) (w : world) :
  stock_data self = VDict (int_dict d) ->
  files w (file_name self) <> Directory ->
  save_data self w =
    (Normal tt, self,
     mkWorld
       (write_file (write_file (files w) (file_name self) []) (file_name self)
          (bytes_of (dict_text d)))
       (log w ++ [(INFO, str "Data saved successfully to " ++ file_name self)])).
Proof.
  intros Hs Hdir.
  unfold save_data, open_write, json_dump; unfold_method.
  destruct (files w (file_name self)) eqn:E; try contradiction;
    rewrite Hs, dumps_int_dict, encode_plain by apply plain_dict_text;
    reflexivity.
Qed.

Lemma positive_int_dict (d : dict) :
  Forall positive_entry d -> exists l : list (pystr * Z), d = int_dict l.
Proof.
  induction 1 as [|[k v] d [q [Hq _]] Hd [l ->]]; [now exists []|].
  cbn in Hq; subst v; now exists ((k, q) :: l).
Qed.





(** ** The decoder always ends *)

Lemma skip_ws_length (s : pystr) : (List.length (Json.skip_ws s) <= List.length s)%nat.
Proof.
  induction s as [|c s IH]; cbn [Json.skip_ws List.length]; [lia|].
  destruct (Json.is_ws c); cbn [List.length]; lia.
Qed.

Lemma cons_char_inv (c : N) (o : option (pystr * pystr)) (t r : pystr) :
  Json.cons_char c o = Some (t, r) -> exists t', o = Some (t', r).
Proof.
  destruct o as [[t' r']|]; cbn; [|discriminate].
  intros [= <- <-]; eauto.
Qed.

Lemma scanstring_length_le (n : nat) :
  forall s t r, (List.length s <= n)%nat ->
  Json.scanstring s = Some (t, r) -> (List.length r < List.length s)%nat.
Proof.
  induction n as [|n IH]; intros s t r Hn H;
    (destruct s as [|c s]; [discriminate|]); cbn [List.length] in Hn; [lia|].
  cbn [Json.scanstring] in H.
  repeat match type of H with
         | context [if ?b then _ else _] => destruct b
         | context [match ?l with [] => _ | _ :: _ => _ end] =>
             destruct l; cbv beta iota in H
         | context [match ?o with Some _ => _ | None => _ end] =>
             destruct o; cbv beta iota in H
         | None = Some _ => discriminate H
         | Some _ = Some _ => injection H as <- <-; cbn [List.length]; lia
         | Json.cons_char _ _ = Some _ =>
             apply cons_char_inv in H as [t' H]; apply IH in H;
             cbn [List.length] in *; lia
         end.
Qed.

Lemma scanstring_length (s t r : pystr) :
  Json.scanstring s = Some (t, r) -> (List.length r < List.length s)%nat.
Proof. now apply (scanstring_length_le (List.length s)). Qed.

Lemma span_digits_length (s ds r : pystr) :
  Json.span_digits s = (ds, r) -> (List.length r <= List.length s)%nat.
Proof.
  revert ds r; induction s as [|c s IH]; intros ds r; cbn [Json.span_digits].
  - intros [= <- <-]; cbn; lia.
  - destruct (Json.is_digit c).
    + destruct (Json.span_digits s) as [ds' r'] eqn:E.
      intros [= <- <-]; specialize (IH _ _ eq_refl); cbn [List.length]; lia.
    + intros [= <- <-]; lia.
Qed.

Lemma match_integer_length (s ds r : pystr) (neg : bool) :
  Json.match_integer s = Some (neg, ds, r) -> (List.length r < List.length s)%nat.
Proof.
  unfold Json.match_integer.
  destruct s as [|c s]; [discriminate|].
  destruct (c =? 45).
  - destruct s as [|c' s]; [discriminate|].
    destruct (c' =? 48); [intros [= <- <- <-]; cbn [List.length]; lia|].
    destruct (Json.is_digit c'); [|discriminate].
    destruct (Json.span_digits s) as [ds' r'] eqn:E; apply span_digits_length in E.
    intros [= <- <- <-]; cbn [List.length]; lia.
  - destruct (c =? 48); [intros [= <- <- <-]; cbn [List.length]; lia|].
    destruct (Json.is_digit c); [|discriminate].
    destruct (Json.span_digits s) as [ds' r'] eqn:E; apply span_digits_length in E.
    intros [= <- <- <-]; cbn [List.length]; lia.
Qed.

Lemma match_frac_length (s f r : pystr) :
  Json.match_frac s = (f, r) -> (List.length r <= List.length s)%nat.
Proof.
  unfold Json.match_frac; destruct s as [|c s]; [intros [= <- <-]; lia|].
  destruct (c =? 46); [|intros [= <- <-]; lia].
  destruct (Json.span_digits s) as [[|d ds] r'] eqn:E; apply span_digits_length in E;
    intros [= <- <-]; cbn [List.length]; lia.
Qed.

Lemma match_exp_length (s f r : pystr) :
  Json.match_exp s = (f, r) -> (List.length r <= List.length s)%nat.
Proof.
  unfold Json.match_exp; destruct s as [|c s]; [intros [= <- <-]; lia|].
  destruct ((c =? 101) || (c =? 69)); [|intros [= <- <-]; lia].
  destruct s as [|g s].
  - cbn; intros [= <- <-]; cbn; lia.
  - destruct ((g =? 45) || (g =? 43)).
    + destruct (Json.span_digits s) as [[|d ds] r'] eqn:E; apply span_digits_length in E;
        intros [= <- <-]; cbn [List.length]; lia.
    + destruct (Json.span_digits (g :: s)) as [[|d ds] r'] eqn:E;
        apply span_digits_length in E;
        intros [= <- <-]; cbn [List.length] in *; lia.
Qed.

Lemma match_number_length (s r : pystr) (v : pyval) :
  Json.match_number s = Some (v, r) -> (List.length r < List.length s)%nat.
Proof.
  unfold Json.match_number.
  destruct (Json.match_integer s) as [[[neg ds] r0]|] eqn:Ei; [|discriminate].
  apply match_integer_length in Ei.
  destruct (Json.match_frac r0) as [f r1] eqn:Ef; apply match_frac_length in Ef.
  destruct (Json.match_exp r1) as [e r2] eqn:Ee; apply match_exp_length in Ee.
  destruct f, e; intros [= <- <-]; lia.
Qed.

Lemma strip_prefix_length (lit s r : pystr) :
  Json.strip_prefix lit s = Some r ->
  (List.length r + List.length lit = List.length s)%nat.
Proof.
  revert s; induction lit as [|x lit IH]; intros s; cbn [Json.strip_prefix].
  - intros [= <-]; cbn; lia.
  - destruct s as [|y s]; [discriminate|].
    destruct (x =? y); [|discriminate].
    intros H; apply IH in H; cbn [List.length]; lia.
Qed.

Lemma scan_atom_length (s r : pystr) (v : pyval) :
  Json.scan_atom s = Json.POk (v, r) -> (List.length r < List.length s)%nat.
Proof.
  unfold Json.scan_atom.
  repeat match goal with
         | |- context [Json.strip_prefix ?lit s] =>
             let E := fresh "E" in
             destruct (Json.strip_prefix lit s) eqn:E;
             [apply strip_prefix_length in E; unfold str in E;
              cbn [List.length map list_ascii_of_string] in E;
              intros [= <- <-]; lia|]
         | |- context [Json.match_number s] =>
             let E := fresh "E" in
             destruct (Json.match_number s) as [[v' r']|] eqn:E;
             [apply match_number_length in E; intros [= <- <-]; lia|]
         end.
  discriminate.
Qed.

Lemma scan_atom_fuel (s : pystr) : Json.scan_atom s <> Json.PFuel.
Proof.
  unfold Json.scan_atom.
  repeat match goal with
         | |- context [match ?o with Some _ => _ | None => _ end] => destruct o
         end; discriminate.
Qed.

(** Bring the lengths of the texts in the context into reach of [lia]. *)
Ltac lengths :=
  repeat match goal with
         | H : Json.scanstring _ = Some _ |- _ => apply scanstring_length in H
         | H : Json.scan_atom _ = Json.POk _ |- _ => apply scan_atom_length in H
         end;
  repeat match goal with
         | _ : context [Json.skip_ws ?x] |- _ =>
             lazymatch goal with
             | _ : (List.length (Json.skip_ws x) <= List.length x)%nat |- _ => fail
             | _ => pose proof (skip_ws_length x)
             end
         | |- context [Json.skip_ws ?x] =>
             lazymatch goal with
             | _ : (List.length (Json.skip_ws x) <= List.length x)%nat |- _ => fail
             | _ => pose proof (skip_ws_length x)
             end
         end;
  repeat match goal with
         | H : Json.skip_ws ?x = _ |- _ => rewrite H in *; clear H
         end;
  cbn [List.length] in *.

(** Case analysis along the branches of a scanner. *)
Ltac branches H :=
  repeat match type of H with
         | context [if ?b then _ else _] => destruct b
         | context [match ?l with [] => _ | _ :: _ => _ end] =>
             let E := fresh "E" in destruct l eqn:E; cbv beta iota in H
         | context [match ?o with Some _ => _ | None => _ end] =>
             let E := fresh "E" in destruct o as [[? ?]|] eqn:E; cbv beta iota in H
         | context [match ?o with Json.POk _ => _ | Json.PErr => _ | Json.PFuel => _ end] =>
             let E := fresh "E" in destruct o as [[? ?]| |] eqn:E; cbv beta iota in H
         end.

(** Every scanner leaves less text than it was given. *)
Lemma scan_shrink (fuel : nat) :
  (forall s v r, Json.scan_once fuel s = Json.POk (v, r) ->
                 (List.length r < List.length s)%nat) /\
  (forall s acc l r, Json.scan_members fuel s acc = Json.POk (l, r) ->
                     (List.length r < List.length s)%nat) /\
  (forall s acc l r, Json.scan_elements fuel s acc = Json.POk (l, r) ->
                     (List.length r < List.length s)%nat).
Proof.
  induction fuel as [|n (IH1 & IH2 & IH3)]; [repeat split; discriminate|].
  repeat split.
  - intros s v r H; cbn [Json.scan_once] in H.
    destruct s as [|c s]; [discriminate|].
    branches H; try discriminate;
      try (injection H as <- <-);
      repeat match goal with
             | E : Json.scan_members n _ _ = Json.POk _ |- _ => apply IH2 in E
             | E : Json.scan_elements n _ _ = Json.POk _ |- _ => apply IH3 in E
             end;
      lengths; lia.
  - intros s acc l r H; cbn [Json.scan_members] in H.
    branches H; try discriminate;
      try (injection H as <- <-);
      repeat match goal with
             | E : Json.scan_once n _ = Json.POk _ |- _ => apply IH1 in E
             | E : Json.scan_members n _ _ = Json.POk _ |- _ => apply IH2 in E
             end;
      lengths; lia.
  - intros s acc l r H; cbn [Json.scan_elements] in H.
    branches H; try discriminate;
      try (injection H as <- <-);
      repeat match goal with
             | E : Json.scan_once n _ = Json.POk _ |- _ => apply IH1 in E
             | E : Json.scan_elements n _ _ = Json.POk _ |- _ => apply IH3 in E
             end;
      lengths; lia.
Qed.

(** With twice the length of the text as budget, no scanner runs out. *)
Lemma scan_fuel (fuel : nat) :
  (forall s, (2 * List.length s + 1 <= fuel)%nat ->
             Json.scan_once fuel s <> Json.PFuel) /\
  (forall s acc, (2 * List.length s + 1 <= fuel)%nat ->
                 Json.scan_members fuel s acc <> Json.PFuel) /\
  (forall s acc, (2 * List.length s + 2 <= fuel)%nat ->
                 Json.scan_elements fuel s acc <> Json.PFuel).
Proof.
  induction fuel as [|n (IH1 & IH2 & IH3)]; [repeat split; intros; lia|].
  destruct (scan_shrink n) as (S1 & S2 & S3).
  repeat split.
  - intros s Hn H; cbn [Json.scan_once] in H.
    destruct s as [|c s]; [discriminate|].
    branches H; try discriminate; try (now apply scan_atom_fuel in H);
      match goal with
      | E : Json.scan_members n _ _ = Json.PFuel |- _ => apply IH2 in E; [assumption|]
      | E : Json.scan_elements n _ _ = Json.PFuel |- _ => apply IH3 in E; [assumption|]
      end; lengths; lia.
  - intros s acc Hn H; cbn [Json.scan_members] in H.
    branches H; try discriminate;
      repeat match goal with
             | E : Json.scan_once n _ = Json.POk _ |- _ => apply S1 in E
             end;
      match goal with
      | E : Json.scan_once n _ = Json.PFuel |- _ => apply IH1 in E; [assumption|]
      | E : Json.scan_members n _ _ = Json.PFuel |- _ => apply IH2 in E; [assumption|]
      end; lengths; lia.
  - intros s acc Hn H; cbn [Json.scan_elements] in H.
    branches H; try discriminate;
      repeat match goal with
             | E : Json.scan_once n _ = Json.POk _ |- _ => apply S1 in E
             end;
      match goal with
      | E : Json.scan_once n _ = Json.PFuel |- _ => apply IH1 in E; [assumption|]
      | E : Json.scan_elements n _ _ = Json.PFuel |- _ => apply IH3 in E; [assumption|]
      end; lengths; lia.
Qed.

(** The decoder of this development always ends: it returns a value or
    raises [JSONDecodeError].  (It has neither the recursion limit nor the
    digit limit of the interpreter.) *)
Lemma loads_total (s : pystr) :
  (exists v, Json.loads s = Normal v) \/ Json.loads s = Raised JSONDecodeError.
Proof.
  unfold Json.loads.
  destruct (Json.scan_once _ _) as [[v r]| |] eqn:E.
  - destruct (Json.skip_ws r); eauto.
  - now right.
  - apply (proj1 (scan_fuel _)) in E; [contradiction|].
    pose proof (skip_ws_length s); lia.
Qed.

(** C7, as the code has it.  [load_data] ends normally when [open] reports
    that the file does not exist (empty stock, a warning in the log) and
    when [json.load] rejects the content of the file with
    [JSONDecodeError] (empty stock, an error in the log); when [json.load]
    returns a document, the stock becomes that document.  Any other error
    of [open], as for a name that denotes a directory, reaches the caller
    and leaves the object and the world as they were.  The outcomes of
    [open] and [json.load] are taken as they come: the statement holds for
    every behaviour of the two, that of [open_read] and [json_load]
    included. *)
Theorem load_data_recovers (open_ : pystr -> method (list Text.byte))
    (load : list Text.byte -> completion pyval)
    (self : InventoryManager) (w : world) :
  let r := load_data_with open_ load self w in
  (open_ (file_name self) self w = (Raised FileNotFoundError, self, w) ->
   r = (Normal tt, mkInventoryManager (file_name self) (VDict []),
        mkWorld (files w)
          (log w ++ [(WARNING, str "File " ++ file_name self
                               ++ str " not found, starting with empty data.")]))) /\
  (forall c,
     open_ (file_name self) self w = (Normal c, self, w) ->
     load c = Raised JSONDecodeError ->
     r = (Normal tt, mkInventoryManager (file_name self) (VDict []),
          mkWorld (files w)
            (log w ++ [(ERROR, str "Invalid JSON format in " ++ file_name self
                               ++ str ".")]))) /\
  (forall c v,
     open_ (file_name self) self w = (Normal c, self, w) ->
     load c = Normal v ->
     r = (Normal tt, mkInventoryManager (file_name self) v,
          mkWorld (files w)
            (log w ++ [(INFO, str "Data loaded successfully from " ++ file_name self)]))) /\
  (forall e,
     open_ (file_name self) self w = (Raised e, self, w) ->
     e <> FileNotFoundError -> e <> JSONDecodeError ->
     r = (Raised e, self, w)) /\
  load_data self w = load_data_with open_read json_load self w.
Proof.
  intros r; subst r.
  unfold load_data_with, try_except; unfold_method.
  repeat split.
  - intros ->; reflexivity.
  - intros c -> ->; reflexivity.
  - intros c v -> ->; reflexivity.
  - intros e -> Hf Hj; destruct e; try reflexivity; contradiction.
Qed.

Lemma load_data_recovers_witness :
  load_data (__init__ None) empty_world =
    (Normal tt, mkInventoryManager (file_name (__init__ None)) (VDict []),
     mkWorld (files empty_world)
       (log empty_world ++
        [(WARNING, str "File " ++ file_name (__init__ None)
                   ++ str " not found, starting with empty data.")])) /\
  load_data (__init__ None) directory_world =
    (Raised IsADirectoryError, __init__ None, directory_world).
Proof.
  split.
  - rewrite (proj2 (proj2 (proj2 (proj2
               (load_data_recovers open_read json_load (__init__ None) empty_world))))).
    apply (proj1 (load_data_recovers open_read json_load (__init__ None) empty_world)).
    reflexivity.
  - rewrite (proj2 (proj2 (proj2 (proj2
               (load_data_recovers open_read json_load (__init__ None) directory_world))))).
    apply (proj1 (proj2 (proj2 (proj2
               (load_data_recovers open_read json_load (__init__ None) directory_world))))).
    + reflexivity.
    + discriminate.
    + discriminate.
Defined.

(** C7, as stated, fails: when the name of the file denotes a directory,
    [open] raises [IsADirectoryError], for which [load_data] has no
    clause; the exception reaches the caller, the stock is not reset and
    nothing is logged. *)
Lemma load_data_directory :
  files directory_world (file_name (__init__ None)) = Directory /\
  load_data (__init__ None) directory_world =
    (Raised IsADirectoryError, __init__ None, directory_world).
Proof. repeat split. Qed.

(** A file that is no UTF-8 text, hence no JSON document, is a case that
    neither clause of [load_data] covers: reading it raises
    [UnicodeDecodeError], not [JSONDecodeError]. *)
Lemma load_data_undecodable :
  files undecodable_world (file_name (__init__ None)) = Regular [Init.Byte.xff] /\
  Text.decode [Init.Byte.xff] = None /\
  load_data (__init__ None) undecodable_world =
    (Raised UnicodeDecodeError, __init__ None, undecodable_world).
Proof. repeat split. Qed.

(** * Further properties of the methods *)

(** ** Quantities that are booleans *)

(** X1.  [True] passes [isinstance(qty, int)] and counts as 1: with the
    quantity [True], [add_item] and [remove_item] do what they do with the
    quantity 1, log record included; [add_item] with [False] raises the
    [ValueError] of a quantity that is not above zero. *)
Theorem bool_quantity (item : pyval) (self : InventoryManager) (w : world) :
  add_item item (VBool true) self w = add_item item (VInt 1) self w /\
  remove_item item (VBool true) self w = remove_item item (VInt 1) self w /\
  (isinstance_str item = true ->
   add_item item (VBool false) self w =
     (Raised (ValueError "Quantity must be greater than zero."), self, w)).
Proof.
  split; [|split].
  - destruct item; reflexivity.
  - destruct item; reflexivity.
  - destruct item; try discriminate; reflexivity.
Qed.

Lemma bool_quantity_witness :
  add_item (VStr (str "pear")) (VBool false) (__init__ None) empty_world =
    (Raised (ValueError "Quantity must be greater than zero."),
     __init__ None, empty_world).
Proof.
  apply (proj2 (proj2 (bool_quantity (VStr (str "pear")) (__init__ None) empty_world))).
  reflexivity.
Defined.

(** ** What a call leaves behind *)

(** [add_item], whatever the arguments and the state: either it does not
    end normally and leaves everything as it was, or it stores one sum
    and emits one record. *)
Lemma add_item_outcome (item qty : pyval) (self : InventoryManager) (w : world) :
  (exists c, c <> Normal tt /\ add_item item qty self w = (c, self, w)) \/
  (exists k d p n,
     item = VStr k /\ stock_data self = VDict d /\
     as_int qty = Some n /\ (0 < n)%Z /\
     as_int (match dict_get d k with Some v => v | None => VInt 0 end) = Some p /\
     add_item item qty self w =
       (Normal tt,
        mkInventoryManager (file_name self) (VDict (dict_set d k (VInt (p + n)))),
        mkWorld (files w)
          (log w ++ [(INFO, str "Added " ++ fmt_d qty ++ str " of " ++ k)]))).
Proof.
  destruct item as [| | | |k| |];
    try (left; eexists; split; [|reflexivity]; discriminate).
  destruct (isinstance_int qty) eqn:Hq.
  2:{ left; eexists; split; [|unfold add_item; rewrite Hq; reflexivity]; discriminate. }
  apply isinstance_int_as_int in Hq as [n Hn].
  destruct (Z.leb_spec n 0) as [Hle|Hgt].
  { left; eexists; split;
      [|unfold add_item; rewrite (as_int_isinstance _ _ Hn); cbn [negb];
        unfold bind, lift; rewrite (py_le_int _ _ 0 Hn);
        apply Z.leb_le in Hle; rewrite Hle; reflexivity]; discriminate. }
  assert (Hpre : add_item (VStr k) qty self w =
                 bind (stock_get (VStr k) (VInt 0))
                   (fun current_qty =>
                      bind (lift (py_add current_qty qty))
                        (fun total =>
                           bind (stock_setitem k total)
                             (fun _ => logging_info
                                (str "Added " ++ fmt_d qty ++ str " of " ++ k))))
                   self w).
  { unfold add_item; rewrite (as_int_isinstance _ _ Hn); cbn [negb].
    unfold bind at 1; unfold lift at 1; rewrite (py_le_int _ _ 0 Hn).
    apply Z.leb_gt in Hgt; now rewrite Hgt. }
  destruct (stock_data self) as [| | | | | |d] eqn:Hs;
    try (left; eexists; split;
         [|rewrite Hpre; unfold_method; rewrite Hs; reflexivity]; discriminate).
  destruct (as_int (match dict_get d k with Some v => v | None => VInt 0 end))
    as [p|] eqn:Hp.
  - right; exists k, d, p, n; repeat split; auto.
    now apply (add_item_ok k qty _ n p d self w Hn Hgt Hs eq_refl).
  - left.
    assert (Hadd : exists c : completion pyval,
               (forall v, c <> Normal v) /\
               py_add (match dict_get d k with Some v => v | None => VInt 0 end) qty = c).
    { unfold py_add; rewrite Hp.
      destruct (is_number _ && is_number qty);
        [exists Unmodelled; split; [discriminate|reflexivity]|].
      destruct (match dict_get d k with Some v => v | None => VInt 0 end)
        as [| | | |x|x|x];
        destruct qty; try discriminate Hn;
        (eexists; split; [|reflexivity]; discriminate). }
    destruct Hadd as (c & Hc & Hadd).
    rewrite Hpre; unfold_method; rewrite Hs.
    destruct (dict_get d k) as [v|]; [|discriminate Hp].
    cbn; rewrite Hadd.
    destruct c as [v'|e|]; [now destruct (Hc v')| |];
      (eexists; split; [|reflexivity]; discriminate).
Qed.

(** [remove_item], whatever the arguments and the state: either it does
    not end normally and leaves everything as it was, or it finds no such
    item and only warns, or it stores or deletes one entry and emits one
    record. *)
Lemma remove_item_outcome (item qty : pyval) (self : InventoryManager) (w : world) :
  (exists c, c <> Normal tt /\ remove_item item qty self w = (c, self, w)) \/
  (exists k,
     item = VStr k /\
     remove_item item qty self w =
       (Normal tt, self,
        mkWorld (files w)
          (log w ++ [(WARNING, str "Attempted to remove non-existent item: " ++ k)]))) \/
  (exists k d old q n,
     item = VStr k /\ stock_data self = VDict d /\ dict_get d k = Some old /\
     as_int old = Some q /\ as_int qty = Some n /\
     remove_item item qty self w =
       if (q - n <=? 0)%Z
       then (Normal tt,
             mkInventoryManager (file_name self) (VDict (dict_del d k)),
             mkWorld (files w)
               (log w ++ [(INFO, str "Removed all of " ++ k
                                 ++ str " (now zero or negative)")]))
       else (Normal tt,
             mkInventoryManager (file_name self) (VDict (dict_set d k (VInt (q - n)))),
             mkWorld (files w)
               (log w ++ [(INFO, str "Removed " ++ fmt_d qty ++ str " of " ++ k)]))).
Proof.
  destruct item as [| | | |k| |];
    try (left; eexists; split; [|reflexivity]; discriminate).
  destruct (isinstance_int qty) eqn:Hq.
  2:{ left; eexists; split; [|unfold remove_item; rewrite Hq; reflexivity]; discriminate. }
  destruct (stock_data self) as [| | | |s|l|d] eqn:Hs;
    try (left; eexists; split;
         [|unfold remove_item; rewrite Hq; unfold_method; rewrite Hs; reflexivity];
         discriminate).
  - destruct (str_contains s k) eqn:Hc.
    + left; eexists; split;
        [|unfold remove_item; rewrite Hq; unfold_method; rewrite Hs; cbn;
          rewrite Hc; cbn; rewrite Hs; reflexivity]; discriminate.
    + right; left; exists k; split; [reflexivity|].
      unfold remove_item; rewrite Hq; unfold_method; rewrite Hs; cbn.
      now rewrite Hc.
  - destruct (existsb (fun v => match v with VStr s => str_eqb s k | _ => false end) l)
      eqn:Hc.
    + left; eexists; split;
        [|unfold remove_item; rewrite Hq; unfold_method; rewrite Hs; cbn;
          rewrite Hc; cbn; rewrite Hs; reflexivity]; discriminate.
    + right; left; exists k; split; [reflexivity|].
      unfold remove_item; rewrite Hq; unfold_method; rewrite Hs; cbn.
      now rewrite Hc.
  - destruct (dict_get d k) as [old|] eqn:Hget.
    2:{ right; left; exists k; split; [reflexivity|].
        unfold remove_item; rewrite Hq; unfold_method; now rewrite Hs, Hget. }
    apply isinstance_int_as_int in Hq as [n Hn].
    destruct (as_int old) as [q|] eqn:Hold.
    + right; right; exists k, d, old, q, n; repeat split; auto.
      now apply (remove_item_ok k qty old).
    + left.
      assert (Hsub : exists c : completion pyval,
                 (forall v, c <> Normal v) /\ py_sub old qty = c).
      { unfold py_sub; rewrite Hold.
        destruct (is_number old && is_number qty);
          eexists; (split; [|reflexivity]); discriminate. }
      destruct Hsub as (c & Hc & Hsub).
      unfold remove_item; rewrite (as_int_isinstance _ _ Hn).
      unfold_method; rewrite Hs, Hget; cbn; rewrite Hs, Hget; cbn; rewrite Hsub.
      destruct c as [v'|e|]; [now destruct (Hc v')| |];
        (eexists; split; [|reflexivity]; discriminate).
Qed.

(** X2.  A call of [add_item] or [remove_item] that raises, for whatever
    reason, leaves the object and the world as they were: no partial
    update, no log record. *)
Theorem failed_call_changes_nothing (c : call) (self : InventoryManager) (w : world)
    (e : exn) :
  completion_of (run_call c self w) = Raised e ->
  run_call c self w = (Raised e, self, w).
Proof.
  destruct c as [item qty|item qty]; unfold run_call, completion_of.
  - destruct (add_item_outcome item qty self w)
      as [(c & _ & ->)|(k & d & p & n & _ & _ & _ & _ & _ & ->)]; cbn [fst].
    + now intros ->.
    + discriminate.
  - destruct (remove_item_outcome item qty self w)
      as [(c & _ & ->)|[(k & _ & ->)|(k & d & old & q & n & _ & _ & _ & _ & _ & ->)]];
      cbn [fst]; try discriminate.
    + now intros ->.
    + destruct (q - n <=? 0)%Z; discriminate.
Qed.

Lemma failed_call_changes_nothing_witness :
  run_call (CallRemove (VStr (str "apple")) (VInt 1))
    (mkInventoryManager (str "inventory.json") (VDict [(str "apple", VNone)]))
    empty_world
  = (Raised (TypeError "unsupported operand type(s) for -"),
     mkInventoryManager (str "inventory.json") (VDict [(str "apple", VNone)]),
     empty_world).
Proof.
  apply (failed_call_changes_nothing
           (CallRemove (VStr (str "apple")) (VInt 1))
           (mkInventoryManager (str "inventory.json") (VDict [(str "apple", VNone)]))
           empty_world).
  reflexivity.
Defined.

(** X3.  [add_item] and [remove_item] work in memory: whatever the
    arguments and however the call ends, no file other than the log file
    is touched (the data file in particular is written by [save_data]
    only), and the file name of the object stays. *)
Theorem call_effects (c : call) (self : InventoryManager) (w : world) :
  let r := run_call c self w in
  (forall p, p <> log_file -> files (world_after r) p = files w p) /\
  file_name (object_after r) = file_name self.
Proof.
  intros r; subst r.
  destruct c as [item qty|item qty]; unfold run_call, world_after, object_after.
  - destruct (add_item_outcome item qty self w)
      as [(c & Hc & ->)|(k & d & p & n & _ & _ & _ & _ & _ & ->)];
      cbn [fst snd files file_name]; split; reflexivity.
  - destruct (remove_item_outcome item qty self w)
      as [(c & Hc & ->)|[(k & _ & ->)|(k & d & old & q & n & _ & _ & _ & _ & _ & ->)]].
    + cbn [fst snd]; split; reflexivity.
    + cbn [fst snd files]; split; reflexivity.
    + destruct (q - n <=? 0)%Z; cbn [fst snd files file_name]; split; reflexivity.
Qed.

Lemma dict_set_same_value (d : dict) (k : pystr) (v : pyval) :
  dict_get d k = Some v -> dict_set d k v = d.
Proof.
  induction d as [|[k' v'] d IH]; cbn; [discriminate|].
  destruct (str_eqb k' k); [now intros [= ->]|].
  intros H; now rewrite IH.
Qed.

Lemma dict_del_absent (d : dict) (k : pystr) : dict_get d k = None -> dict_del d k = d.
Proof.
  unfold dict_del; induction d as [|[k' v'] d IH]; cbn; [reflexivity|].
  destruct (str_eqb k' k); [discriminate|].
  intros H; cbn; now rewrite IH.
Qed.

(** X4.  From a stock of quantities above zero, [add_item(item, qty)] and
    then [remove_item(item, qty)] with the same string item and the same
    integer above zero both end normally and give back the stock as it was:
    the same quantities under the same keys in the same order, and an item
    that was not there is gone again. *)
Theorem add_then_remove (k : pystr) (qty : pyval) (n : Z)
    (self : InventoryManager) (w w' : world) :
  positive_stock self -> as_int qty = Some n -> (0 < n)%Z ->
  let r1 := add_item (VStr k) qty self w in
  let r2 := remove_item (VStr k) qty (object_after r1) w' in
  completion_of r1 = Normal tt /\ completion_of r2 = Normal tt /\
  stock_data (object_after r2) = stock_data self.
Proof.
  intros (d & Hs & Hd) Hn Hpos r1 r2; subst r1 r2.
  destruct (dict_get d k) as [v|] eqn:Hget.
  - destruct (positive_entry_get d k v Hd Hget) as (p & -> & Hp).
    rewrite (add_item_ok k qty (VInt p) n p d self w Hn Hpos Hs)
      by (now rewrite ?Hget).
    unfold object_after, completion_of; cbn [fst snd].
    rewrite (remove_item_ok k qty (VInt (p + n)) (p + n) n (dict_set d k (VInt (p + n))))
      by (auto using dict_get_set_same).
    replace (p + n - n <=? 0)%Z with false by (symmetry; apply Z.leb_gt; lia).
    cbn [fst snd stock_data]; rewrite dict_set_set.
    replace (p + n - n)%Z with p by lia.
    now rewrite dict_set_same_value, Hs.
  - rewrite (add_item_ok k qty (VInt 0) n 0 d self w Hn Hpos Hs)
      by (now rewrite ?Hget).
    unfold object_after, completion_of; cbn [fst snd].
    rewrite (remove_item_ok k qty (VInt (0 + n)) (0 + n) n (dict_set d k (VInt (0 + n))))
      by (auto using dict_get_set_same).
    replace (0 + n - n <=? 0)%Z with true by (symmetry; apply Z.leb_le; lia).
    cbn [fst snd stock_data]; now rewrite dict_del_set, dict_del_absent, Hs.
Qed.

Lemma add_then_remove_witness :
  let self := mkInventoryManager (str "inventory.json") (VDict [(str "apple", VInt 7)]) in
  let r1 := add_item (VStr (str "pear")) (VInt 4) self empty_world in
  let r2 := remove_item (VStr (str "pear")) (VInt 4) (object_after r1) empty_world in
  completion_of r1 = Normal tt /\ completion_of r2 = Normal tt /\
  stock_data (object_after r2) = stock_data self.
Proof.
  intros self.
  apply (add_then_remove (str "pear") (VInt 4) 4 self empty_world empty_world);
    [|reflexivity|lia].
  exists [(str "apple", VInt 7)]; split; [reflexivity|].
  repeat constructor; exists 7%Z; split; [reflexivity|lia].
Defined.

(** X5.  [remove_item] does not check the sign of the quantity: for an
    item in a stock of quantities above zero and an integer [n] above zero,
    [remove_item(item, -n)] ends normally and leaves the stock that
    [add_item(item, n)] leaves. *)
Theorem remove_negative_adds (k : pystr) (n : Z) (d : dict)
    (self : InventoryManager) (w : world) :
  stock_data self = VDict d -> Forall positive_entry d ->
  dict_get d k <> None -> (0 < n)%Z ->
  let r := remove_item (VStr k) (VInt (- n)) self w in
  let r' := add_item (VStr k) (VInt n) self w in
  completion_of r = Normal tt /\ completion_of r' = Normal tt /\
  stock_data (object_after r) = stock_data (object_after r').
Proof.
  intros Hs Hd Hin Hn r r'; subst r r'.
  destruct (dict_get d k) as [v|] eqn:Hget; [|contradiction].
  destruct (positive_entry_get d k v Hd Hget) as (q & -> & Hq).
  rewrite (remove_item_ok k (VInt (- n)) (VInt q) q (- n) d self w Hs Hget eq_refl eq_refl).
  rewrite (add_item_ok k (VInt n) (VInt q) n q d self w eq_refl Hn Hs)
    by (now rewrite ?Hget).
  replace (q - - n <=? 0)%Z with false by (symmetry; apply Z.leb_gt; lia).
  unfold completion_of, object_after; cbn [fst snd stock_data].
  repeat split; do 3 f_equal; lia.
Qed.

Lemma remove_negative_adds_witness :
  let self := mkInventoryManager (str "inventory.json") (VDict [(str "apple", VInt 7)]) in
  let r := remove_item (VStr (str "apple")) (VInt (- 3)) self empty_world in
  let r' := add_item (VStr (str "apple")) (VInt 3) self empty_world in
  completion_of r = Normal tt /\ completion_of r' = Normal tt /\
  stock_data (object_after r) = stock_data (object_after r').
Proof.
  intros self.
  apply (remove_negative_adds (str "apple") 3 [(str "apple", VInt 7)] self empty_world);
    [reflexivity| |discriminate|lia].
  repeat constructor; exists 7%Z; split; [reflexivity|lia].
Defined.

Lemma others_set_any (d : dict) (k : pystr) (v : pyval) :
  others k (dict_set d k v) = others k d.
Proof.
  unfold others; induction d as [|[k' v'] d IH]; cbn.
  - now rewrite str_eqb_refl.
  - destruct (str_eqb k' k) eqn:E; cbn; rewrite E; cbn; [reflexivity|now f_equal].
Qed.

(** X6.  An [add_item] that ends normally changes the entry of its item
    only: every other item keeps its quantity, the items keep their order,
    an item that was there keeps its place and a new item comes last. *)
Theorem add_item_frame (k : pystr) (qty : pyval) (d : dict)
    (self : InventoryManager) (w : world) :
  stock_data self = VDict d ->
  completion_of (add_item (VStr k) qty self w) = Normal tt ->
  exists d' : dict,
    stock_data (object_after (add_item (VStr k) qty self w)) = VDict d' /\
    (forall k', k' <> k -> dict_get d' k' = dict_get d k') /\
    others k d' = others k d /\
    dict_keys d' =
      match dict_get d k with
      | Some _ => dict_keys d
      | None => dict_keys d ++ [k]
      end.
Proof.
  intros Hs; unfold completion_of, object_after.
  destruct (add_item_outcome (VStr k) qty self w)
    as [(c & Hc & ->)|(k0 & d0 & p & n & [= <-] & Hs0 & _ & _ & _ & ->)]; cbn [fst snd].
  - intros ->; contradiction.
  - intros _; rewrite Hs in Hs0; injection Hs0 as <-.
    eexists; split; [reflexivity|split; [|split]].
    + intros k' Hne; now apply dict_get_set_other.
    + apply others_set_any.
    + destruct (dict_get d k) eqn:Hget.
      * apply dict_keys_set_present; congruence.
      * apply dict_keys_set_absent; assumption.
Qed.

Lemma add_item_frame_witness :
  let self := mkInventoryManager (str "inventory.json")
                (VDict [(str "apple", VInt 7); (str "banana", VInt 2)]) in
  exists d' : dict,
    stock_data (object_after (add_item (VStr (str "kiwi")) (VInt 1) self empty_world))
      = VDict d' /\
    (forall k', k' <> str "kiwi" ->
       dict_get d' k' = dict_get [(str "apple", VInt 7); (str "banana", VInt 2)] k') /\
    others (str "kiwi") d' =
      others (str "kiwi") [(str "apple", VInt 7); (str "banana", VInt 2)] /\
    dict_keys d' =
      match dict_get [(str "apple", VInt 7); (str "banana", VInt 2)] (str "kiwi") with
      | Some _ => dict_keys [(str "apple", VInt 7); (str "banana", VInt 2)]
      | None => dict_keys [(str "apple", VInt 7); (str "banana", VInt 2)] ++ [str "kiwi"]
      end.
Proof.
  intros self.
  apply (add_item_frame (str "kiwi") (VInt 1)
           [(str "apple", VInt 7); (str "banana", VInt 2)] self empty_world);
    reflexivity.
Defined.

(** ** Queries *)

(** X7.  [get_qty] and [check_low_items] only read: whatever the argument
    and the state, and also when they raise, the object and the world are
    left as they were. *)
Theorem queries_read_only (self : InventoryManager) (w : world) :
  (forall item, exists c, get_qty item self w = (c, self, w)) /\
  (forall threshold, exists c, check_low_items threshold self w = (c, self, w)).
Proof.
  split.
  - intros item; unfold_method.
    destruct (stock_data self) as [| | | | | |d]; try (eexists; reflexivity).
    destruct item as [| | | |k| |]; try (eexists; reflexivity).
    destruct (dict_get d k); eexists; reflexivity.
  - intros threshold; unfold check_low_items; unfold_method.
    destruct (stock_data self); eexists; reflexivity.
Qed.

(** X8.  In a stock of quantities above zero no item is below the
    threshold 1: [check_low_items(t)] returns the empty list for every
    integer [t <= 1], zero and the negative thresholds included. *)
Theorem check_low_items_below_one (threshold : pyval) (t : Z)
    (self : InventoryManager) (w : world) :
  positive_stock self -> as_int threshold = Some t -> (t <= 1)%Z ->
  check_low_items (Some threshold) self w = (Normal [], self, w).
Proof.
  intros (d & Hs & Hd) Ht Hle.
  assert (E : low_items d threshold = Normal []).
  { clear Hs; induction Hd as [|[k v] d (q & Hq & Hpos) Hd IH]; [reflexivity|].
    cbn in Hq; subst v; cbn [low_items].
    rewrite (py_lt_int (VInt q) threshold q t eq_refl Ht), IH.
    now replace (q <? t)%Z with false by (symmetry; apply Z.ltb_ge; lia). }
  unfold check_low_items; unfold_method; now rewrite Hs, E.
Qed.

Lemma check_low_items_below_one_witness :
  check_low_items (Some (VInt 1))
    (object_after (add_item (VStr (str "apple")) (VInt 1) (__init__ None) empty_world))
    empty_world
  = (Normal [],
     object_after (add_item (VStr (str "apple")) (VInt 1) (__init__ None) empty_world),
     empty_world).
Proof.
  apply (check_low_items_below_one (VInt 1) 1); [|reflexivity|lia].
  apply add_item_positive; exists []; split; [reflexivity|constructor].
Defined.

(** X9.  Raising the threshold only adds names: on a stock of integer
    quantities every item that [check_low_items] reports at an integer
    threshold is reported at every greater one. *)
Theorem check_low_items_monotone (d : dict) (t1 t2 : Z) (l1 l2 : list pystr)
    (self : InventoryManager) (w : world) :
  stock_data self = VDict d ->
  Forall (fun kv => exists q, as_int (snd kv) = Some q) d ->
  (t1 <= t2)%Z ->
  completion_of (check_low_items (Some (VInt t1)) self w) = Normal l1 ->
  completion_of (check_low_items (Some (VInt t2)) self w) = Normal l2 ->
  incl l1 l2.
Proof.
  intros Hs Hd Hle.
  unfold check_low_items; unfold_method; rewrite Hs; cbn.
  rewrite (low_items_int d (VInt t1) t1 eq_refl Hd),
          (low_items_int d (VInt t2) t2 eq_refl Hd).
  intros [= <-] [= <-] k Hin.
  apply in_map_iff in Hin as (kv & <- & Hin).
  apply filter_In in Hin as [Hin Hlt].
  apply in_map, filter_In; split; [assumption|].
  destruct (as_int (snd kv)) as [q|]; [|discriminate].
  apply Z.ltb_lt in Hlt; apply Z.ltb_lt; lia.
Qed.

Lemma check_low_items_monotone_witness :
  incl [str "banana"] [str "apple"; str "banana"].
Proof.
  apply (check_low_items_monotone
           [(str "apple", VInt 7); (str "banana", VInt 2)] 5 8
           [str "banana"] [str "apple"; str "banana"]
           (mkInventoryManager (str "inventory.json")
              (VDict [(str "apple", VInt 7); (str "banana", VInt 2)]))
           empty_world); try reflexivity; [|lia].
  repeat constructor; cbn; eauto.
Defined.

(** ** Stocks that a file brought in *)

(** X10.  [load_data] installs any JSON document.  With a stock that is no
    dictionary (the file held a list, a string, a number), [get_qty],
    [check_low_items] and an [add_item] with accepted arguments all raise
    [AttributeError], which is no error of the argument checks, and change
    nothing. *)
Theorem stock_not_a_dictionary (self : InventoryManager) (w : world) :
  (forall d, stock_data self <> VDict d) ->
  (forall item,
     get_qty item self w =
       (Raised (AttributeError "object has no attribute 'get'"), self, w)) /\
  (forall threshold,
     check_low_items threshold self w =
       (Raised (AttributeError "object has no attribute 'items'"), self, w)) /\
  (forall k qty n,
     as_int qty = Some n -> (0 < n)%Z ->
     add_item (VStr k) qty self w =
       (Raised (AttributeError "object has no attribute 'get'"), self, w)).
Proof.
  intros Hnd; split; [|split].
  - intros item; unfold_method.
    destruct (stock_data self) as [| | | | | |d]; try reflexivity.
    now destruct (Hnd d).
  - intros threshold; unfold check_low_items; unfold_method.
    destruct (stock_data self) as [| | | | | |d]; try reflexivity.
    now destruct (Hnd d).
  - intros k qty n Hn Hpos.
    unfold add_item; rewrite (as_int_isinstance _ _ Hn); cbn [negb].
    unfold bind at 1; unfold lift at 1; rewrite (py_le_int _ _ 0 Hn).
    replace (n <=? 0)%Z with false by (symmetry; apply Z.leb_gt; lia).
    unfold_method.
    destruct (stock_data self) as [| | | | | |d]; try reflexivity.
    now destruct (Hnd d).
Qed.

Lemma stock_not_a_dictionary_witness :
  get_qty (VStr (str "apple"))
    (mkInventoryManager (str "inventory.json") (VList [])) empty_world
  = (Raised (AttributeError "object has no attribute 'get'"),
     mkInventoryManager (str "inventory.json") (VList []), empty_world).
Proof.
  apply (proj1 (stock_not_a_dictionary
                  (mkInventoryManager (str "inventory.json") (VList [])) empty_world
                  ltac:(discriminate))).
Defined.

(** X11.  A quantity that is no number (the file held a string, [null], a
    list or an object under the item) is found out only when it is used:
    [add_item] on that item with accepted arguments raises [TypeError] and
    changes nothing, and [check_low_items] with an integer threshold raises
    [TypeError] instead of returning a list, when the quantities before it
    in the stock are integers. *)
Theorem quantity_not_a_number (k : pystr) (v : pyval) (d1 d2 : dict)
    (self : InventoryManager) (w : world) :
  stock_data self = VDict (d1 ++ (k, v) :: d2) ->
  is_number v = false ->
  Forall (fun kv => exists q, as_int (snd kv) = Some q) d1 ->
  (forall threshold t,
     as_int (match threshold with Some x => x | None => VInt 5 end) = Some t ->
     check_low_items threshold self w =
       (Raised (TypeError "ordering not supported between these types"), self, w)) /\
  (dict_get d1 k = None ->
   forall qty n,
     as_int qty = Some n -> (0 < n)%Z ->
     add_item (VStr k) qty self w =
       (Raised (TypeError "unsupported operand type(s) for +"), self, w)).
Proof.
  intros Hs Hv Hd1; split.
  - intros threshold t Ht.
    unfold check_low_items; unfold_method; rewrite Hs.
    set (th := match threshold with Some x => x | None => VInt 5 end) in *.
    assert (E : low_items (d1 ++ (k, v) :: d2) th
                = Raised (TypeError "ordering not supported between these types"));
      [|now rewrite E].
    clear Hs; induction Hd1 as [|[k1 v1] d1 (q & Hq) Hd1 IH]; cbn [app low_items].
    + assert (Hc : py_lt v th
                   = Raised (TypeError "ordering not supported between these types")).
      { unfold py_lt, py_compare.
        destruct v as [| | | | | |]; try discriminate Hv;
          destruct th as [| [|] | | | | |]; try discriminate Ht; reflexivity. }
      now rewrite Hc.
    + cbn in Hq; rewrite (py_lt_int v1 th q t Hq Ht), IH; reflexivity.
  - intros Hnone qty n Hn Hpos.
    unfold add_item; rewrite (as_int_isinstance _ _ Hn); cbn [negb].
    unfold bind at 1; unfold lift at 1; rewrite (py_le_int _ _ 0 Hn).
    replace (n <=? 0)%Z with false by (symmetry; apply Z.leb_gt; lia).
    unfold_method; rewrite Hs.
    assert (Hget : dict_get (d1 ++ (k, v) :: d2) k = Some v).
    { clear - Hnone; induction d1 as [|[k1 v1] d1 IH]; cbn in *.
      - now rewrite str_eqb_refl.
      - destruct (str_eqb k1 k); [discriminate|auto]. }
    rewrite Hget; cbn.
    assert (Hadd : py_add v qty = Raised (TypeError "unsupported operand type(s) for +")).
    { unfold py_add.
      destruct v as [| | | | | |]; try discriminate Hv;
        destruct qty as [| [|] | | | | |]; try discriminate Hn; reflexivity. }
    now rewrite Hadd.
Qed.

Lemma quantity_not_a_number_witness :
  check_low_items None
    (mkInventoryManager (str "inventory.json")
       (VDict ([(str "apple", VInt 7)] ++ (str "pear", VNone) :: [])))
    empty_world
  = (Raised (TypeError "ordering not supported between these types"),
     mkInventoryManager (str "inventory.json")
       (VDict ([(str "apple", VInt 7)] ++ (str "pear", VNone) :: [])),
     empty_world).
Proof.
  refine (proj1 (quantity_not_a_number (str "pear") VNone [(str "apple", VInt 7)] []
                   (mkInventoryManager (str "inventory.json")
                      (VDict ([(str "apple", VInt 7)] ++ (str "pear", VNone) :: [])))
                   empty_world eq_refl eq_refl _) None 5%Z eq_refl).
  repeat constructor; cbn; eauto.
Defined.

(** X12.  [load_data] replaces the stock wholesale: what it leaves in
    memory depends on the file only, never on the stock that was there.
    Two objects with the same file name end [load_data] the same way, and
    when it ends normally they hold the same stock. *)
Theorem load_data_forgets (name : pystr) (v1 v2 : pyval) (w : world) :
  let r1 := load_data (mkInventoryManager name v1) w in
  let r2 := load_data (mkInventoryManager name v2) w in
  completion_of r1 = completion_of r2 /\
  world_after r1 = world_after r2 /\
  (completion_of r1 = Normal tt ->
   stock_data (object_after r1) = stock_data (object_after r2)).
Proof.
  intros r1 r2; subst r1 r2; rewrite !load_data_unfold; cbn [file_name].
  unfold completion_of, world_after, object_after.
  destruct (files w name) as [| |c]; cbn [fst snd];
    [repeat split|repeat split; discriminate|].
  destruct (json_load c) as [v|e|]; cbn [fst snd];
    [repeat split| |repeat split; discriminate].
  destruct e; cbn [fst snd]; repeat split; discriminate.
Qed.

(** ** Saving *)

Lemma write_file_other (fs : pystr -> node) (name p : pystr) (content : list Text.byte) :
  p <> name -> write_file fs name content p = fs p.
Proof. intros H; unfold write_file; now rewrite str_eqb_neq. Qed.

(** X13.  [save_data] never changes the object, and the only files it
    touches are the one of its file name and the log file, whatever the
    stock is and however the call ends.  When the file name denotes a
    directory it raises [IsADirectoryError] and changes and logs
    nothing. *)
Theorem save_data_frame (self : InventoryManager) (w : world) :
  let r := save_data self w in
  object_after r = self /\
  (forall p, p <> file_name self -> p <> log_file ->
     files (world_after r) p = files w p) /\
  (files w (file_name self) = Directory -> r = (Raised IsADirectoryError, self, w)).
Proof.
  intros r; subst r.
  unfold save_data, open_write, json_dump; unfold_method.
  destruct (files w (file_name self)) eqn:Ef;
    try (destruct (Json.dumps (stock_data self)) as [text|];
         [destruct (Text.encode text)|]);
    cbn [fst snd files];
    (split; [reflexivity|split; [|discriminate || reflexivity]]);
    intros p Hp _; rewrite ?write_file_other by assumption; reflexivity.
Qed.

(** X14.  Whatever the item names are, the file that [save_data] writes for
    a stock of quantities above zero holds nothing but line feeds and
    printable ASCII characters: every other character of a name is written
    as an escape. *)
Theorem save_data_writes_ascii (self : InventoryManager) (w : world) :
  positive_stock self ->
  files w (file_name self) <> Directory ->
  exists content : list Text.byte,
    files (world_after (save_data self w)) (file_name self) = Regular content /\
    Forall (fun b => plain (Strings.Byte.to_N b) = true) content.
Proof.
  intros (d & Hs & Hd) Hdir.
  destruct (positive_int_dict d Hd) as [l ->].
  rewrite (save_data_int_dict l self w Hs Hdir).
  unfold world_after; cbn [snd files].
  rewrite write_file_same; eexists; split; [reflexivity|].
  unfold bytes_of; apply Forall_map.
  eapply Forall_impl; [|apply plain_dict_text].
  intros c Hc; rewrite byte_of_value_to_N; [assumption|].
  apply plain_bounds in Hc; lia.
Qed.

Lemma save_data_writes_ascii_witness :
  exists content : list Text.byte,
    files (world_after
             (save_data
                (mkInventoryManager (str "inventory.json") (VDict [([233; 128512], VInt 3)]))
                empty_world)) (str "inventory.json") = Regular content /\
    Forall (fun b => plain (Strings.Byte.to_N b) = true) content.
Proof.
  apply (save_data_writes_ascii
           (mkInventoryManager (str "inventory.json") (VDict [([233; 128512], VInt 3)]))
           empty_world); [|discriminate].
  eexists; split; [reflexivity|].
  repeat constructor; exists 3%Z; split; [reflexivity|lia].
Defined.

Lemma save_data_frame_witness :
  save_data (__init__ None) (mkWorld (fun _ => Directory) [])
  = (Raised IsADirectoryError, __init__ None, mkWorld (fun _ => Directory) []).
Proof.
  apply (proj2 (proj2 (save_data_frame (__init__ None) (mkWorld (fun _ => Directory) [])))).
  reflexivity.
Defined.

(** ** Printing *)

Section Printing.

Variable accepts : pystr -> bool.

Lemma write_accepted (chunk : pystr) (self : InventoryManager) (w : world) (out : pystr) :
  accepts chunk = true ->
  write accepts chunk self w out = (Normal tt, self, w, out ++ chunk).
Proof. intros H; unfold write; now rewrite H. Qed.

Lemma print_one (s : pystr) (self : InventoryManager) (w : world) (out : pystr) :
  accepts s = true -> accepts [10] = true ->
  print accepts [Some s] self w out = (Normal tt, self, w, out ++ s ++ [10]).
Proof.
  intros Hs Hn; unfold print, print_rest, pbind.
  rewrite !write_accepted by assumption; now rewrite <- app_assoc.
Qed.


(** The line of an item with an integer quantity. *)
Lemma print_items_int (l : list (pystr * Z)) (self : InventoryManager) (w : world)
    (out : pystr) :
  accepts [10] = true ->
  Forall (fun kz => accepts (fst kz ++ str " -> " ++ Json.int_repr (snd kz)) = true) l ->
  print_items accepts (int_dict l) self w out =
    (Normal tt, self, w,
     out ++ flat_map (fun kz => fst kz ++ str " -> " ++ Json.int_repr (snd kz) ++ [10]) l).
Proof.
  intros Hn Hl; revert out; induction Hl as [|[k z] l Hk Hl IH]; intros out.
  - cbn [int_dict map print_items flat_map]; now rewrite List.app_nil_r.
  - change (int_dict ((k, z) :: l)) with ((k, VInt z) :: int_dict l).
    cbn [print_items py_str flat_map fst snd] in *; unfold pbind.
    rewrite print_one, IH by assumption.
    now rewrite <- !app_assoc.
Qed.

(** X15.  On a stock of integer quantities of at most 4300 digits
    [print_data] prints the header line and then one line
    [name -> quantity] for each item, in the order of the stock, ends
    normally and leaves the object and the world as they were (on a console
    that takes these lines). *)
Theorem print_data_report (l : list (pystr * Z)) (self : InventoryManager) (w : world)
    (out : pystr) :
  stock_data self = VDict (int_dict l) ->
  Forall (fun kz => within_digit_limit (snd kz)) l ->
  accepts (str "Items Report") = true -> accepts [10] = true ->
  Forall (fun kz => accepts (fst kz ++ str " -> " ++ Json.int_repr (snd kz)) = true) l ->
  print_data accepts self w out =
    (Normal tt, self, w,
     out ++ str "Items Report" ++ [10]
         ++ flat_map (fun kz => fst kz ++ str " -> " ++ Json.int_repr (snd kz) ++ [10]) l).
Proof.
  intros Hs _ Hh Hn Hl; unfold print_data, pbind at 1.
  rewrite print_one by assumption.
  unfold pbind, run, get_stock; rewrite Hs.
  rewrite print_items_int by assumption.
  now rewrite <- !app_assoc.
Qed.

Lemma only_prints_pbind {A B : Type} (m : program A) (k : A -> program B) :
  only_prints m -> (forall a, only_prints (k a)) -> only_prints (pbind m k).
Proof.
  intros Hm Hk self w out; unfold pbind.
  destruct (Hm self w out) as (c & s1 & ->).
  destruct c as [a|e|]; try (eexists; eexists; reflexivity).
  destruct (Hk a self w (out ++ s1)) as (c' & s2 & ->).
  exists c', (s1 ++ s2); now rewrite app_assoc.
Qed.

Lemma only_prints_write (chunk : pystr) : only_prints (write accepts chunk).
Proof.
  intros self w out; unfold write; destruct (accepts chunk).
  - eexists; eexists; reflexivity.
  - exists (Raised UnicodeEncodeError), []; now rewrite List.app_nil_r.
Qed.

Lemma only_prints_stop {A : Type} (c : completion A) :
  only_prints (fun self w out => (c, self, w, out)).
Proof. intros self w out; exists c, []; now rewrite List.app_nil_r. Qed.

Lemma only_prints_print_rest (args : list (option pystr)) :
  only_prints (print_rest accepts args).
Proof.
  induction args as [|[s|] args IH]; cbn [print_rest].
  - apply only_prints_write.
  - apply only_prints_pbind; [apply only_prints_write|intros _].
    apply only_prints_pbind; [apply only_prints_write|intros _; exact IH].
  - apply only_prints_stop.
Qed.

Lemma only_prints_print (args : list (option pystr)) : only_prints (print accepts args).
Proof.
  destruct args as [|[s|] args]; cbn [print].
  - apply only_prints_write.
  - apply only_prints_pbind; [apply only_prints_write|intros _].
    apply only_prints_print_rest.
  - apply only_prints_stop.
Qed.

Lemma only_prints_print_items (d : dict) : only_prints (print_items accepts d).
Proof.
  induction d as [|[k v] d IH]; cbn [print_items].
  - apply only_prints_stop.
  - apply only_prints_pbind; [apply only_prints_print|intros _; exact IH].
Qed.

(** X16.  [print_data] only prints: whatever the stock and the console,
    and however it ends, it leaves the object and the world as they were
    and what was printed before stays.  With a stock that is no dictionary
    the header is printed before [AttributeError] is raised. *)
Theorem print_data_only_prints (self : InventoryManager) (w : world) (out : pystr) :
  (exists c suffix, print_data accepts self w out = (c, self, w, out ++ suffix)) /\
  ((forall d, stock_data self <> VDict d) ->
   accepts (str "Items Report") = true -> accepts [10] = true ->
   print_data accepts self w out =
     (Raised (AttributeError "object has no attribute 'items'"), self, w,
      out ++ str "Items Report" ++ [10])).
Proof.
  split.
  - revert self w out; change (only_prints (print_data accepts)).
    unfold print_data.
    apply only_prints_pbind; [apply only_prints_print|intros _].
    apply only_prints_pbind.
    + intros self w out; exists (Normal (stock_data self)), [].
      now rewrite List.app_nil_r.
    + intros stock; destruct stock; try apply only_prints_print_items;
        apply only_prints_stop.
  - intros Hnd Hh Hn; unfold print_data, pbind at 1.
    rewrite print_one by assumption.
    unfold pbind, run, get_stock, raise.
    destruct (stock_data self) as [| | | | | |d]; try reflexivity.
    now destruct (Hnd d).
Qed.

End Printing.

Lemma print_data_report_witness :
  print_data utf8_console
    (mkInventoryManager (str "inventory.json")
       (VDict (int_dict [(str "apple", 7%Z); (str "banana", 2%Z)])))
    empty_world []
  = (Normal tt,
     mkInventoryManager (str "inventory.json")
       (VDict (int_dict [(str "apple", 7%Z); (str "banana", 2%Z)])),
     empty_world,
     [] ++ str "Items Report" ++ [10]
        ++ flat_map (fun kz => fst kz ++ str " -> " ++ Json.int_repr (snd kz) ++ [10])
             [(str "apple", 7%Z); (str "banana", 2%Z)]).
Proof.
  apply (print_data_report utf8_console [(str "apple", 7%Z); (str "banana", 2%Z)]);
    try reflexivity.
  - apply Forall_cons; [|apply Forall_cons; [|apply Forall_nil]];
      unfold within_digit_limit; cbn; lia.
  - repeat constructor.
Defined.

Lemma print_data_only_prints_witness :
  print_data utf8_console (mkInventoryManager (str "inventory.json") (VList []))
    empty_world []
  = (Raised (AttributeError "object has no attribute 'items'"),
     mkInventoryManager (str "inventory.json") (VList []), empty_world,
     [] ++ str "Items Report" ++ [10]).
Proof.
  apply (proj2 (print_data_only_prints utf8_console
                  (mkInventoryManager (str "inventory.json") (VList []))
                  empty_world [])); [discriminate|reflexivity|reflexivity].
Defined.

(** ** The demonstration *)









Lemma call_effects_witness :
  files (world_after (run_call (CallAdd (VStr (str "apple")) (VInt 10))
                        (__init__ None) negative_world)) (str "inventory.json")
  = files negative_world (str "inventory.json").
Proof.
  apply (proj1 (call_effects (CallAdd (VStr (str "apple")) (VInt 10))
                  (__init__ None) negative_world)).
  intros H; vm_compute in H; discriminate H.
Defined.

Lemma load_data_forgets_witness :
  stock_data (object_after
                (load_data (mkInventoryManager (str "inventory.json")
                              (VDict [(str "apple", VInt 7)])) empty_world))
  = stock_data (object_after
                  (load_data (mkInventoryManager (str "inventory.json") (VList []))
                     empty_world)).
Proof.
  apply (proj2 (proj2 (load_data_forgets (str "inventory.json")
                         (VDict [(str "apple", VInt 7)]) (VList []) empty_world))).
  reflexivity.
Defined.
